(** * Scripting-dictionary export pipeline: a shallow embedding

    The two scripts [generate_objc_pdfs.py] and [convert_pdfs_to_text.py]
    are embedded as functions over an explicit world state.  Python [str]
    values are sequences of Unicode code points, file system listings are
    association lists in directory-scan order, the [used] set of
    [unique_name] is a finite set, and external programs ([swiftc], [sdp],
    the two converter binaries) are oracles of the environment. *)

From stdpp Require Import base numbers list sorting strings pretty gmap.

Local Open Scope N_scope.

(** ** Python strings *)

(** A Python [str] is a sequence of code points. *)
Abbreviation pystr := (list N).

(** A string literal of the source. *)
Definition str (s : string) : pystr :=
  Ascii.N_of_ascii <$> String.list_ascii_of_string s.
Arguments str : simpl never.

(** [str.isspace] on one character: the code points [str.split()] and
    [str.strip()] treat as whitespace. *)
Definition py_isspace (c : N) : bool :=
  (9 <=? c) && (c <=? 13) || (28 <=? c) && (c <=? 32) ||
  (c =? 133) || (c =? 160) || (c =? 5760) ||
  (8192 <=? c) && (c <=? 8202) || (c =? 8232) || (c =? 8233) ||
  (c =? 8239) || (c =? 8287) || (c =? 12288).

(** [s.replace(old, new)] for one-character [old] and [new]. *)
Definition py_replace (old new : N) (s : pystr) : pystr :=
  (λ ch, if ch =? old then new else ch) <$> s.

Definition flush (word : pystr) : list pystr :=
  match word with [] => [] | _ => [word] end.

(** [s.split()]: the maximal runs of non-whitespace characters. *)
Fixpoint py_split_go (word s : pystr) : list pystr :=
  match s with
  | [] => flush word
  | c :: s' =>
      if py_isspace c then flush word ++ py_split_go [] s'
      else py_split_go (word ++ [c]) s'
  end.

Definition py_split (s : pystr) : list pystr := py_split_go [] s.

(** [sep.join(words)]. *)
Fixpoint py_join (sep : pystr) (words : list pystr) : pystr :=
  match words with
  | [] => []
  | [w] => w
  | w :: ws => w ++ sep ++ py_join sep ws
  end.

(** [needle in hay] on strings. *)
Fixpoint py_startswith (prefix s : pystr) : bool :=
  match prefix, s with
  | [], _ => true
  | p :: prefix', c :: s' => (p =? c) && py_startswith prefix' s'
  | _ :: _, [] => false
  end.

Fixpoint py_contains (needle hay : pystr) : bool :=
  py_startswith needle hay ||
  match hay with
  | [] => false
  | _ :: hay' => py_contains needle hay'
  end.

Definition py_endswith (suffix s : pystr) : bool :=
  py_startswith (reverse suffix) (reverse s).

(** Lexicographic comparison of strings by code point, Python's [<=]. *)
Fixpoint pystr_leb (s t : pystr) : bool :=
  match s, t with
  | [], _ => true
  | _ :: _, [] => false
  | a :: s', b :: t' => (a <? b) || (a =? b) && pystr_leb s' t'
  end.

(** ** [sanitize_filename] and [unique_name] *)

Definition printable (ch : N) : Prop := 32 ≤ ch < 127.

#[global] Instance printable_dec ch : Decision (printable ch).
Proof. unfold printable. apply _. Defined.

Section sanitize.
(** [unicodedata.normalize('NFKD', _)] belongs to the Python library. *)
Variable nfkd : pystr → pystr.

Definition sanitize_filename (name : pystr) : pystr :=
  let normalized := nfkd name in
  let ascii_only := filter printable normalized in
  let cleaned := py_replace 58 45 (py_replace 47 45 ascii_only) in
  let cleaned := py_join (str " ") (py_split cleaned) in
  match cleaned with [] => str "Untitled" | _ => cleaned end.
End sanitize.

(** The value of [cleaned] before the ['Untitled'] default. *)
Definition cleaned_of (nfkd : pystr → pystr) (name : pystr) : pystr :=
  py_join (str " ")
    (py_split (py_replace 58 45 (py_replace 47 45 (filter printable (nfkd name))))).

(** The characters [sanitize_filename] keeps: the printable ASCII
    characters of the normalized name other than the space, with ['/']
    and [':'] replaced by ['-']. *)
Definition kept_of (nfkd : pystr → pystr) (name : pystr) : pystr :=
  py_replace 58 45 (py_replace 47 45
    (filter (λ ch, printable ch ∧ ch ≠ 32) (nfkd name))).

(** A character a sanitized name may hold. *)
Definition clean_char (ch : N) : Prop := printable ch ∧ ch ≠ 47 ∧ ch ≠ 58.

(** A word of [str.split()]. *)
Definition nonspace (w : pystr) : Prop := Forall (λ ch, py_isspace ch = false) w.

(** A run of whitespace. *)
Definition whitespace (s : pystr) : Prop := Forall (λ ch, py_isspace ch = true) s.

(** A word followed by gaps and further words:
    [w ++ gap1 ++ w1 ++ gap2 ++ w2 ++ ...]. *)
Fixpoint glue (w : pystr) (rest : list (pystr * pystr)) : pystr :=
  match rest with
  | [] => w
  | (gap, w') :: rest' => w ++ gap ++ glue w' rest'
  end.

(** A gap of whitespace and the word after it. *)
Definition gap_and_word (gw : pystr * pystr) : Prop :=
  gw.1 ≠ [] ∧ whitespace gw.1 ∧ gw.2 ≠ [] ∧ nonspace gw.2.

(** The value of [cleaned] after the two [replace] calls, which [split]
    takes apart. *)
Definition replaced_of (nfkd : pystr → pystr) (name : pystr) : pystr :=
  py_replace 58 45 (py_replace 47 45 (filter printable (nfkd name))).

(** Two adjacent whitespace characters. *)
Fixpoint has_ws_run (s : pystr) : bool :=
  match s with
  | a :: ((b :: _) as s') => py_isspace a && py_isspace b || has_ws_run s'
  | _ => false
  end.

(** A fragment of NFKD sufficient for examples: Latin-1 letters with an
    acute accent decompose into the base letter and U+0301, the no-break
    space into a space, everything else is left alone. *)
Definition nfkd_sample (name : pystr) : pystr :=
  name ≫= λ ch,
    if ch =? 233 then [101; 769]
    else if ch =? 225 then [97; 769]
    else if ch =? 160 then [32]
    else [ch].

(** [f"{base} ({counter})"] *)
Definition numbered (base : pystr) (counter : N) : pystr :=
  base ++ str " (" ++ str (pretty counter) ++ str ")".

(** The [while candidate in used] loop; [fuel] bounds the number of
    membership tests. *)
Fixpoint unique_name_loop (fuel : nat) (base candidate : pystr) (counter : N)
    (used : gset pystr) : option pystr :=
  match fuel with
  | O => None
  | S fuel' =>
      if decide (candidate ∈ used)
      then unique_name_loop fuel' base (numbered base counter) (counter + 1) used
      else Some candidate
  end.

(** [unique_name base used] returns the chosen name and the set after
    [used.add(candidate)]. *)
Definition unique_name (base : pystr) (used : gset pystr)
    : option (pystr * gset pystr) :=
  candidate ← unique_name_loop (S (size used)) base base 2 used;
  Some (candidate, {[candidate]} ∪ used).

(** One shared [used] set threaded through a sequence of calls. *)
Fixpoint unique_names (bases : list pystr) (used : gset pystr)
    : option (list pystr * gset pystr) :=
  match bases with
  | [] => Some ([], used)
  | base :: bases' =>
      '(name, used1) ← unique_name base used;
      '(names, used2) ← unique_names bases' used1;
      Some (name :: names, used2)
  end.

(** ** Paths

    A [pathlib] path is the tuple of its [parts]; an absolute POSIX path
    starts with the part ["/"]. *)
Abbreviation Path := (list pystr).

(** [path / name] and [path / relative] *)
Definition joinpath (p q : Path) : Path := p ++ q.
Infix "</>" := joinpath (at level 40, left associativity).

(** [Path(text)] on POSIX: empty and ["."] components vanish, one or
    three and more leading slashes give the root ["/"], exactly two give
    ["//"]. *)
Fixpoint split_on (sep : N) (word s : pystr) : list pystr :=
  match s with
  | [] => [word]
  | c :: s' => if c =? sep then word :: split_on sep [] s' else split_on sep (word ++ [c]) s'
  end.

Definition path_root (s : pystr) : Path :=
  match s with
  | 47 :: 47 :: 47 :: _ => [str "/"]
  | 47 :: 47 :: _ => [str "//"]
  | 47 :: _ => [str "/"]
  | _ => []
  end.

Definition path_of (s : pystr) : Path :=
  path_root s ++
  filter (λ part, part ≠ [] ∧ part ≠ str ".") (split_on 47 [] s).

Definition is_absolute (p : Path) : bool :=
  match p with
  | root :: _ => py_startswith (str "/") root
  | [] => false
  end.

(** [path.name] *)
Definition path_name (p : Path) : pystr :=
  if is_absolute p && bool_decide (length p = 1%nat) then [] else List.last p [].

(** [s.rfind(ch)] *)
Fixpoint py_rfind (ch : N) (s : pystr) : option nat :=
  match s with
  | [] => None
  | c :: s' =>
      match py_rfind ch s' with
      | Some i => Some (S i)
      | None => if c =? ch then Some 0%nat else None
      end
  end.

(** The index at which [PurePath.suffix] starts, when the name has one:
    [0 < i < len(name) - 1] for [i = name.rfind('.')]. *)
Definition suffix_index (name : pystr) : option nat :=
  match py_rfind 46 name with
  | Some i => if bool_decide (0 < i < length name - 1)%nat then Some i else None
  | None => None
  end.

Definition name_suffix (name : pystr) : pystr :=
  match suffix_index name with Some i => drop i name | None => [] end.

Definition name_stem (name : pystr) : pystr :=
  match suffix_index name with Some i => take i name | None => name end.

(** [path.stem] and [path.with_suffix(suffix)] *)
Definition path_stem (p : Path) : pystr := name_stem (path_name p).

Definition with_suffix (p : Path) (suffix : pystr) : Path :=
  removelast p ++ [name_stem (path_name p) ++ suffix].

(** [str(path)] *)
Definition path_str (p : Path) : pystr :=
  match p with
  | root :: rest =>
      if py_startswith (str "/") root then root ++ py_join (str "/") rest
      else py_join (str "/") p
  | [] => str "."
  end.

(** [path.relative_to(base)]; [None] stands for the [ValueError]. *)
Fixpoint relative_to (p base : Path) {struct base} : option Path :=
  match base, p with
  | [], _ => Some p
  | b :: base', x :: p' => if bool_decide (b = x) then relative_to p' base' else None
  | _ :: _, [] => None
  end.

(** Comparison of paths, as [sort] uses it: lexicographic on the parts. *)
Fixpoint path_leb (p q : Path) : bool :=
  match p, q with
  | [], _ => true
  | _ :: _, [] => false
  | a :: p', b :: q' =>
      if bool_decide (a = b) then path_leb p' q' else pystr_leb a b
  end.

(** ** Sorting

    [sorted] and [list.sort] are stable; so is insertion from the right. *)
Section sorting.
Context {A : Type} (leb : A → A → bool).

Fixpoint insert_sorted (x : A) (l : list A) : list A :=
  match l with
  | [] => [x]
  | y :: l' => if leb x y then x :: y :: l' else y :: insert_sorted x l'
  end.

Definition py_sorted (l : list A) : list A := foldr insert_sorted [] l.
End sorting.

(** ** The file system as the generator observes it *)
Record FS := {
  fs_exists : Path → bool;             (* [path.exists()] *)
  fs_rglob : Path → pystr → list Path; (* [list(root.rglob(pattern))], in scan order *)
}.

(** A file system given by the list of its entries in scan order; the
    patterns of the source are all of the form ["*suffix"]. *)
Definition glob_match (pattern name : pystr) : bool :=
  match pattern with
  | 42 :: suffix => py_endswith suffix name
  | _ => bool_decide (pattern = name)
  end.

Definition strictly_below (root p : Path) : bool :=
  bool_decide (take (length root) p = root) && bool_decide (length root < length p)%nat.

Definition fs_of_entries (entries : list Path) : FS := {|
  fs_exists p := bool_decide (p ∈ entries);
  fs_rglob root pattern :=
    filter (λ p, strictly_below root p && glob_match pattern (path_name p)) entries;
|}.

(** ** Property lists, effects *)

(** A value of [Info.plist]; [PData] is [bytes], [POther] any value that
    is neither [bytes] nor [str], with its truth value. *)
Inductive plist_value :=
  | PData (data : list N)
  | PString (text : pystr)
  | POther (truthy : bool).

(** The keys of [Info.plist] the generator reads.  The three name keys
    hold strings, as the property-list schema has them. *)
Record Info := {
  OSAScriptingDefinition : option plist_value;
  CFBundleIdentifier : option pystr;
  CFBundleDisplayName : option pystr;
  CFBundleName : option pystr;
}.

(** What the scripts do to the outside, in order. *)
Inductive effect :=
  | Stdout (message : pystr)              (* [print(message)] *)
  | Stderr (message : pystr)              (* [print(message, file=sys.stderr)] *)
  | WriteBytes (p : Path) (data : list N) (* [path.write_bytes(data)] *)
  | WriteText (p : Path) (text : pystr)   (* [path.write_text(text)] *)
  | Run (argv : list pystr).              (* [subprocess.run(argv, ...)] *)

Definition log (message : pystr) : effect := Stdout message.
Definition warn (message : pystr) : effect := Stderr (str "warning: " ++ message).

Definition stderr_of (trace : list effect) : list pystr :=
  trace ≫= λ e, match e with Stderr m => [m] | _ => [] end.

Definition stdout_of (trace : list effect) : list pystr :=
  trace ≫= λ e, match e with Stdout m => [m] | _ => [] end.

Definition runs_of (trace : list effect) : list (list pystr) :=
  trace ≫= λ e, match e with Run argv => [argv] | _ => [] end.
Arguments stderr_of : simpl never.
Arguments stdout_of : simpl never.
Arguments runs_of : simpl never.

(** ** [find_script_resources] *)

Definition has_part (part : pystr) (p : Path) : bool := bool_decide (part ∈ p).

(** The sort key [(0 if '.lproj' not in path.parts else (0 if 'en.lproj'
    in path.parts else 1), len(path.parts))]. *)
Definition sdef_key (p : Path) : N * N :=
  (if negb (has_part (str ".lproj") p) then 0
   else if has_part (str "en.lproj") p then 0 else 1,
   N.of_nat (length p)).

(** Tuples compare lexicographically. *)
Definition key_leb (k1 k2 : N * N) : bool :=
  (k1.1 <? k2.1) || (k1.1 =? k2.1) && (k1.2 <=? k2.2).

Definition sdef_leb (p q : Path) : bool := key_leb (sdef_key p) (sdef_key q).

(** The search below [Contents/Resources], lines 153 to 172. *)
Definition search_resources (fs : FS) (app_path : Path) : option (list Path) :=
  let resource_root := app_path </> [str "Contents"] </> [str "Resources"] in
  if fs_exists fs resource_root then
    let sdef_candidates := fs_rglob fs resource_root (str "*.sdef") in
    match py_sorted sdef_leb sdef_candidates with
    | best :: _ => Some [best]
    | [] =>
        let suite_candidates := fs_rglob fs resource_root (str "*.scriptSuite") in
        match py_sorted path_leb suite_candidates with
        | suite :: _ =>
            let term := with_suffix suite (str ".scriptTerminology") in
            if fs_exists fs term then Some [suite; term] else None
        | [] => None
        end
    end
  else None.

(** The result and the effects, in order. *)
Definition find_script_resources (fs : FS) (app_path : Path) (info : Info)
    (temp_dir : Path) : option (list Path) * list effect :=
  let resource_root := app_path </> [str "Contents"] </> [str "Resources"] in
  match OSAScriptingDefinition info with
  | Some (PData ((_ :: _) as scripting_data)) =>
      let sdef_path := temp_dir </> [str "dictionary.sdef"] in
      (Some [sdef_path], [WriteBytes sdef_path scripting_data])
  | Some (PString ((_ :: _) as scripting_data)) =>
      let candidate := path_of scripting_data in
      let candidate :=
        if is_absolute candidate then candidate else resource_root </> candidate in
      if fs_exists fs candidate then (Some [candidate], [])
      else
        (None,
         [warn (path_stem app_path ++ str ": Info.plist references OSAScriptingDefinition '"
                ++ scripting_data ++ str "', but the resource was not found.")])
  | _ => (search_resources fs app_path, [])
  end.

(** No component of the path is a localization folder. *)
Definition outside_lproj (p : Path) : Prop :=
  Forall (λ part, py_endswith (str ".lproj") part = false) p.

(** [info.get('OSAScriptingDefinition')] is truthy [bytes] or [str]. *)
Definition declares_definition (info : Info) : bool :=
  match OSAScriptingDefinition info with
  | Some (PData (_ :: _)) | Some (PString (_ :: _)) => true
  | _ => false
  end.

Definition resource_root (app_path : Path) : Path :=
  app_path </> [str "Contents"] </> [str "Resources"].

(** A bundle [/Applications/Demo.app] with the given entries below
    [Contents/Resources]. *)
Definition demo_app : Path := [str "/"; str "Applications"; str "Demo.app"].
Definition demo_root : Path := demo_app </> [str "Contents"] </> [str "Resources"].
Definition demo_fs (below : list Path) : FS :=
  fs_of_entries (demo_app :: (demo_app </> [str "Contents"]) :: demo_root
                 :: ((λ p, demo_root </> p) <$> below)).
Definition no_info : Info := {|
  OSAScriptingDefinition := None; CFBundleIdentifier := None;
  CFBundleDisplayName := None; CFBundleName := None |}.
(** An [Info.plist] that holds [OSAScriptingDefinition] alone. *)
Definition declaring_info (value : plist_value) : Info := {|
  OSAScriptingDefinition := Some value; CFBundleIdentifier := None;
  CFBundleDisplayName := None; CFBundleName := None |}.

(** ** Exceptions and the state monad of the scripts *)

Inductive exn :=
  | GenerationError (message : pystr)
  | ConversionError (message : pystr)
  | CalledProcessError (message : pystr)
  | FileExistsError (message : pystr)
  | ValueError.

(** [Diverge] is a loop that has used up its fuel. *)
Inductive outcome (A : Type) :=
  | Return (a : A)
  | Raise (e : exn)
  | Diverge.
Arguments Return {A} a.
Arguments Raise {A} e.
Arguments Diverge {A}.

(** A [subprocess.CompletedProcess]. *)
Record Proc := {
  returncode : Z;
  proc_stdout : pystr;
  proc_stderr : pystr;
}.

(** [a or b] on strings *)
Definition py_or (a b : pystr) : pystr := match a with [] => b | _ => a end.

(** [s.strip()] *)
Fixpoint py_lstrip (s : pystr) : pystr :=
  match s with
  | c :: s' => if py_isspace c then py_lstrip s' else s
  | [] => []
  end.
Definition py_strip (s : pystr) : pystr := reverse (py_lstrip (reverse (py_lstrip s))).

(** [ch.isalnum()] on ASCII characters. *)
Definition ascii_isalnum (ch : N) : bool :=
  (48 <=? ch) && (ch <=? 57) || (65 <=? ch) && (ch <=? 90) || (97 <=? ch) && (ch <=? 122).

(** What [swiftc] does when run. *)
Record CompileOutcome := {
  compile_proc : Proc;
  compile_binary : option Z;    (* the time stamp of the binary it leaves *)
}.

(** ** The generator, [generate_objc_pdfs.py] *)
Module Generator.

(** What [sdp] and [text2pdf] do when run. *)
Record SdpOutcome := {
  sdp_proc : Proc;
  sdp_header : bool;            (* [header_path.exists()] afterwards *)
}.
Record ConvertOutcome := {
  convert_returncode : Z;
  convert_wrote : bool;         (* the output file exists afterwards *)
  convert_exc : pystr;          (* [str(exc)] of the [CalledProcessError] *)
}.

Inductive plist_read :=
  | PlistMissing
  | PlistUnreadable (exc : pystr)
  | PlistLoaded (info : Info).

(** The environment of one run.  Time stamps are totally ordered; [Z]
    stands for [st_mtime].  A tool that is started runs to its end:
    [subprocess.run] returns, and the outcome of the run is what the
    oracle of the tool says. *)
Record Env := {
  WORKSPACE_ROOT : Path;
  home : Path;                                  (* [Path.home()] *)
  nfkd : pystr → pystr;                         (* [unicodedata.normalize('NFKD', _)] *)
  fs : FS;
  is_dir : Path → bool;
  resolve : Path → Path;
  read_plist : Path → plist_read;               (* [plistlib.load] on [Contents/Info.plist] *)
  which : pystr → option pystr;                 (* [shutil.which] *)
  source_mtime : option Z;                      (* [tools/text2pdf.swift], if it exists *)
  mkdtemp : Path → Path;                        (* the temporary directory made for a bundle *)
  swiftc_run : list pystr → CompileOutcome;
  sdp_run : list pystr → Path → SdpOutcome;     (* by [argv] and [cwd] *)
  convert_run : list pystr → ConvertOutcome;
}.

(** What a run reads and changes.  The output directory and the build
    directory are directories or can be made: the [mkdir(parents=True,
    exist_ok=True)] calls of the script succeed. *)
Record World := {
  out_files : gset pystr;     (* the names present in [output_dir] *)
  binary_mtime : option Z;    (* [tools/.build/text2pdf], if it exists *)
  trace : list effect;
}.

Definition M (A : Type) : Type := World → outcome A * World.

#[global] Instance M_ret : MRet M := λ A a w, (Return a, w).
#[global] Instance M_bind : MBind M := λ A B k m w,
  match m w with
  | (Return a, w') => k a w'
  | (Raise e, w') => (Raise e, w')
  | (Diverge, w') => (Diverge, w')
  end.

(** The world after further effects. *)
Definition extend (w : World) (es : list effect) : World :=
  {| out_files := out_files w; binary_mtime := binary_mtime w; trace := trace w ++ es |}.

Definition raise {A} (e : exn) : M A := λ w, (Raise e, w).
Definition diverge {A} : M A := λ w, (Diverge, w).
Definition emits (es : list effect) : M unit := λ w, (Return (), extend w es).
Definition emit (e : effect) : M unit := emits [e].
Definition get {A} (f : World → A) : M A := λ w, (Return (f w), w).
Definition set_binary (t : option Z) : M unit := λ w,
  (Return (), {| out_files := out_files w; binary_mtime := t; trace := trace w |}).
Definition add_file (name : pystr) : M unit := λ w,
  (Return (), {| out_files := {[name]} ∪ out_files w; binary_mtime := binary_mtime w;
                 trace := trace w |}).

Section generator.
Variable env : Env.

Definition TOOLS_DIR : Path := WORKSPACE_ROOT env </> [str "tools"].
Definition DEFAULT_OUTPUT_DIR : Path := WORKSPACE_ROOT env </> [str "AppScripts"].
Definition TEXT2PDF_SOURCE : Path := TOOLS_DIR </> [str "text2pdf.swift"].
Definition TEXT2PDF_BUILD : Path := TOOLS_DIR </> [str ".build"].

Definition APP_SEARCH_PATHS : list Path := [
  [str "/"; str "Applications"];
  [str "/"; str "System"; str "Applications"];
  [str "/"; str "System"; str "Applications"; str "Utilities"];
  [str "/"; str "System"; str "Library"; str "CoreServices"];
  home env </> [str "Applications"]
].

(** The message for a failed compilation, lines 98 to 115. *)
Definition compile_error (error_output : pystr) : pystr :=
  if py_contains (str "module cache") error_output
     || py_contains (str "Operation not permitted") error_output
  then str "Swift compiler could not write its module cache. Ensure the sandbox allows writes to the repository or run this script outside the restricted environment."
  else if py_contains (str "failed to build module 'Swift'") error_output
          || py_contains (str "this SDK is not supported by the compiler") error_output
  then str "Swift compiler/toolchain mismatch: install or select the full Xcode toolchain via `sudo xcode-select -s /Applications/Xcode.app/Contents/Developer`."
  else if py_contains (str "redefinition of module 'SwiftBridging'") error_output
  then str "Swift headers from the Command Line Tools are conflicting. Switching to the full Xcode toolchain usually resolves the duplicate module definition."
  else str "Failed to compile text converter: " ++ error_output.

(** The nested [needs_rebuild()]: the binary is missing or older than
    the source. *)
Definition needs_rebuild (source_time : Z) (binary : option Z) : bool :=
  match binary with
  | None => true
  | Some binary_time => (binary_time <? source_time)%Z
  end.

Definition compile_command (swiftc : pystr) : list pystr :=
  let binary_path := TEXT2PDF_BUILD </> [str "text2pdf"] in
  let module_cache := TEXT2PDF_BUILD </> [str "ModuleCache"] in
  [swiftc; path_str TEXT2PDF_SOURCE; str "-o"; path_str binary_path;
   str "-module-cache-path"; path_str module_cache].

Definition ensure_text2pdf : M Path :=
  match source_mtime env with
  | None =>
      raise (GenerationError (str "Missing converter source at " ++ path_str TEXT2PDF_SOURCE))
  | Some source_time =>
      let binary_path := TEXT2PDF_BUILD </> [str "text2pdf"] in
      binary ← get binary_mtime;
      if needs_rebuild source_time binary then
        match which env (str "swiftc") with
        | None =>
            raise (GenerationError (str "swiftc not found; install Xcode command-line tools or Swift toolchain."))
        | Some swiftc =>
            emit (log (str "Compiling text converter " ++ [8594] ++ str " " ++ path_str binary_path));;
            let command := compile_command swiftc in
            emit (Run command);;
            let result := swiftc_run env command in
            match compile_binary result with
            | Some t => set_binary (Some t)
            | None => mret ()
            end;;
            if bool_decide (returncode (compile_proc result) ≠ 0%Z) then
              let error_output :=
                py_strip (py_or (proc_stderr (compile_proc result))
                                (proc_stdout (compile_proc result))) in
              raise (GenerationError (compile_error error_output))
            else mret binary_path
        end
      else mret binary_path
  end.

Definition sdp_command (sdp basename : pystr) (inputs : list Path) : list pystr :=
  [sdp; str "-fh"; str "--basename"; basename] ++ (path_str <$> inputs).

Definition run_sdp (inputs : list Path) (basename : pystr) (work_dir : Path) : M Path :=
  match which env (str "sdp") with
  | None =>
      raise (GenerationError (str "sdp not found; install Xcode to access scripting bridge tools."))
  | Some sdp =>
      let command := sdp_command sdp basename inputs in
      emit (Run command);;
      let result := sdp_run env command work_dir in
      if bool_decide (returncode (sdp_proc result) ≠ 0%Z) then
        raise (GenerationError
          (str "sdp failed for " ++ basename ++ str ": " ++
           py_or (py_strip (proc_stderr (sdp_proc result)))
                 (py_or (py_strip (proc_stdout (sdp_proc result))) (str "unknown error"))))
      else
        let header_path := work_dir </> [basename ++ str ".h"] in
        if sdp_header result then mret header_path
        else raise (GenerationError
               (str "sdp did not produce expected header " ++ path_str header_path))
  end.

Definition convert_command (converter header_path output_path : Path) : list pystr :=
  [path_str converter; path_str header_path; path_str output_path].

Definition convert_to_pdf (converter header_path output_path : Path) : M unit :=
  let command := convert_command converter header_path output_path in
  emit (Run command);;
  let result := convert_run env command in
  (if convert_wrote result then add_file (List.last output_path []) else mret ());;
  if bool_decide (convert_returncode result ≠ 0%Z)
  then raise (CalledProcessError (convert_exc result))
  else mret ().

(** [try: body except ...: handler]; [handler e = None] when no clause
    matches [e]. *)
Definition try_except {A} (body : M A) (handler : exn → option (M A)) : M A := λ w,
  match body w with
  | (Raise e, w') =>
      match handler e with
      | Some h => h w'
      | None => (Raise e, w')
      end
  | r => r
  end.

Definition load_info_plist (app_path : Path) : M (option Info) :=
  match read_plist env app_path with
  | PlistMissing => mret None
  | PlistUnreadable exc =>
      emit (warn (str "Failed to read Info.plist for " ++ path_str app_path ++ str ": " ++ exc));;
      mret None
  | PlistLoaded info => mret (Some info)
  end.

(** [info.get(key)] for a name key, as the operand of [or]. *)
Definition get_name (value : option pystr) : pystr := default [] value.

(** The body of the [for] loop of [generate_pdfs], lines 235 to 261;
    the result is [used_names] after the iteration. *)
Definition app_name_of (app_path : Path) (info : Info) : pystr :=
  py_or (get_name (CFBundleDisplayName info))
        (py_or (get_name (CFBundleName info)) (path_stem app_path)).

(** [''.join(ch for ch in safe_name if ch.isalnum()) or 'Dictionary'] *)
Definition sdp_basename (safe_name : pystr) : pystr :=
  py_or (filter (λ ch, ascii_isalnum ch) safe_name) (str "Dictionary").

Definition process_app (output_dir converter app_path : Path) (info : Info)
    (used_names : gset pystr) : M (gset pystr) :=
  let app_name := app_name_of app_path info in
  let safe_name := sanitize_filename (nfkd env) app_name in
  let existing_pdf := output_dir </> [safe_name ++ str ".pdf"] in
  pdf_exists ← get (λ w, bool_decide (safe_name ++ str ".pdf" ∈ out_files w));
  if pdf_exists : bool then
    match relative_to existing_pdf (WORKSPACE_ROOT env) with
    | None => raise ValueError
    | Some rel =>
        emit (log (str "Skipping " ++ app_name ++ str ": " ++ path_str rel
                   ++ str " already exists"));;
        mret used_names
    end
  else
    let tmp_dir := mkdtemp env app_path in
    let found := find_script_resources (fs env) app_path info tmp_dir in
    emits found.2;;
    match found.1 with
    | None | Some [] =>
        emit (warn (str "Skipping " ++ app_name ++ str ": no scripting definition found"));;
        mret used_names
    | Some inputs =>
        let basename := sdp_basename safe_name in
        header ← try_except
                   (header_path ← run_sdp inputs basename tmp_dir;
                    mret (inr header_path : pystr + Path))
                   (λ e, match e with
                         | GenerationError exc => Some (mret (inl exc))
                         | _ => None
                         end);
        match header with
        | inl exc =>
            emit (warn (app_name ++ str ": " ++ exc));;
            mret used_names
        | inr header_path =>
            match unique_name safe_name used_names with
            | None => diverge
            | Some (pdf_name, used_names) =>
                let pdf_path := output_dir </> [pdf_name ++ str ".pdf"] in
                try_except
                  (convert_to_pdf converter header_path pdf_path;;
                   match relative_to pdf_path (WORKSPACE_ROOT env) with
                   | None => raise ValueError
                   | Some rel => emit (log (str "Wrote " ++ path_str rel))
                   end)
                  (λ e, match e with
                        | CalledProcessError exc =>
                            Some (emit (warn (str "Failed to convert header for " ++ app_name
                                              ++ str ": " ++ exc)))
                        | _ => None
                        end);;
                mret used_names
            end
        end
    end.

(** [bundle_id or str(app.resolve())] *)
Definition app_key (app : Path) (info : Info) : pystr :=
  py_or (get_name (CFBundleIdentifier info)) (path_str (resolve env app)).

(** [base.rglob('*.app')] over the search paths that exist, in order. *)
Definition app_candidates (paths : list Path) : list Path :=
  paths ≫= λ base, if fs_exists (fs env) base then fs_rglob (fs env) base (str "*.app") else [].

(** The [for] loop of [generate_pdfs] over the generator
    [iter_applications]: each step resumes the generator up to its next
    [yield] and then runs the loop body. *)
Fixpoint for_applications (output_dir converter : Path) (apps : list Path)
    (seen used_names : gset pystr) : M unit :=
  match apps with
  | [] => mret ()
  | app :: apps =>
      if negb (is_dir env app) then for_applications output_dir converter apps seen used_names
      else
        info ← load_info_plist app;
        match info with
        | None => for_applications output_dir converter apps seen used_names
        | Some info =>
            let key := app_key app info in
            if bool_decide (key ∈ seen)
            then for_applications output_dir converter apps seen used_names
            else
              used_names ← process_app output_dir converter app info used_names;
              for_applications output_dir converter apps ({[key]} ∪ seen) used_names
        end
  end.

Definition search_paths (scope : pystr) : list Path :=
  if bool_decide (scope = str "user") then
    [[str "/"; str "Applications"]; home env </> [str "Applications"]]
  else if bool_decide (scope = str "system") then
    [[str "/"; str "System"; str "Applications"];
     [str "/"; str "System"; str "Applications"; str "Utilities"];
     [str "/"; str "System"; str "Library"; str "CoreServices"]]
  else APP_SEARCH_PATHS.

(** [{path.stem for path in output_dir.glob('*.pdf')}] *)
Definition pdf_stems (names : gset pystr) : gset pystr :=
  set_map name_stem (filter (λ name, py_endswith (str ".pdf") name) names).

Definition generate_pdfs (output_dir : Path) (scope : pystr) : M unit :=
  converter ← ensure_text2pdf;
  used_names ← get (λ w, pdf_stems (out_files w));
  for_applications output_dir converter (app_candidates (search_paths scope)) ∅ used_names.

(** The parsed command line. *)
Record Args := {
  output : Path;
  user_only : bool;
  system_only : bool;
}.

Definition main (args : Args) : M Z :=
  let scope :=
    if user_only args then str "user"
    else if system_only args then str "system"
    else str "all" in
  try_except
    (generate_pdfs (output args) scope;; mret 0%Z)
    (λ e, match e with
          | GenerationError exc => Some (emit (warn exc);; mret 1%Z)
          | _ => None
          end).
End generator.

(** ** Failures and sample runs of the generator *)
Section generator_statements.
Variable env : Env.

(** A fatal setup error: the converter source is missing, or the binary
    has to be rebuilt and [swiftc] is missing or exits non-zero. *)
Definition setup_fails (w : World) : Prop :=
  match source_mtime env with
  | None => True
  | Some source_time =>
      needs_rebuild source_time (binary_mtime w) = true ∧
      match which env (str "swiftc") with
      | None => True
      | Some swiftc =>
          returncode (compile_proc (swiftc_run env (compile_command env swiftc))) ≠ 0%Z
      end
  end.

(** [output_dir] lies below [WORKSPACE_ROOT], as the default does. *)
Definition under_root (output_dir : Path) : Prop :=
  is_Some (relative_to output_dir (WORKSPACE_ROOT env)).
End generator_statements.

(** Two bundles below [/Applications], both named [Notes], with
    different bundle identifiers, each with one [.sdef] file. *)
Definition notes_app : Path := [str "/"; str "Applications"; str "Notes.app"].
Definition other_notes_app : Path :=
  [str "/"; str "Applications"; str "Extras"; str "Notes.app"].

Definition bundle_entries (app : Path) : list Path :=
  [app; app </> [str "Contents"]; app </> [str "Contents"; str "Resources"];
   app </> [str "Contents"; str "Resources"; str "Notes.sdef"]].

Definition notes_info (bundle_id : pystr) : Info := {|
  OSAScriptingDefinition := None;
  CFBundleIdentifier := Some bundle_id;
  CFBundleDisplayName := None;
  CFBundleName := Some (str "Notes") |}.

Definition ok_proc : Proc := {| returncode := 0; proc_stdout := []; proc_stderr := [] |}.

(** The sample environment: the work space is [/repo]; [swiftc] is
    installed and compiles; the converter source, [sdp] and what [sdp]
    leaves are as given; the converter writes its output and exits with
    [convert_rc]. *)
Definition sample_env (source : option Z) (sdp : option pystr) (header : bool)
    (convert_rc : Z) : Env := {|
  WORKSPACE_ROOT := [str "/"; str "repo"];
  home := [str "/"; str "Users"; str "me"];
  nfkd := nfkd_sample;
  fs := fs_of_entries
          ([str "/"; str "Applications"] :: bundle_entries notes_app
           ++ [str "/"; str "Applications"; str "Extras"] :: bundle_entries other_notes_app);
  is_dir := λ _, true;
  resolve := λ p, p;
  read_plist := λ app,
    if bool_decide (app = notes_app) then PlistLoaded (notes_info (str "com.example.notes"))
    else if bool_decide (app = other_notes_app)
    then PlistLoaded (notes_info (str "org.sample.notes"))
    else PlistMissing;
  which := λ tool,
    if bool_decide (tool = str "swiftc") then Some (str "/usr/bin/swiftc")
    else if bool_decide (tool = str "sdp") then sdp
    else None;
  source_mtime := source;
  mkdtemp := λ _, [str "/"; str "tmp"; str "work"];
  swiftc_run := λ _, {| compile_proc := ok_proc; compile_binary := Some 10%Z |};
  sdp_run := λ _ _, {| sdp_proc := ok_proc; sdp_header := header |};
  convert_run := λ _,
    {| convert_returncode := convert_rc; convert_wrote := true; convert_exc := str "exit" |};
|}.

(** The sample environment with a [swiftc] that exits with 1 after two
    lines of diagnostics and leaves no binary. *)
Definition broken_swiftc_env : Env :=
  let env := sample_env (Some 1%Z) (Some (str "/usr/bin/sdp")) true 0 in
  {| WORKSPACE_ROOT := WORKSPACE_ROOT env; home := home env; nfkd := nfkd env;
     fs := fs env; is_dir := is_dir env; resolve := resolve env;
     read_plist := read_plist env; which := which env;
     source_mtime := source_mtime env; mkdtemp := mkdtemp env;
     swiftc_run := λ _,
       {| compile_proc :=
            {| returncode := 1; proc_stdout := [];
               proc_stderr := str "main.swift:1: error: one" ++ [10]
                              ++ str "main.swift:2: error: two" ++ [10] |};
          compile_binary := None |};
     sdp_run := sdp_run env; convert_run := convert_run env |}.

(** An empty output directory and no converter binary. *)
Definition unbuilt_world : World :=
  {| out_files := ∅; binary_mtime := None; trace := [] |}.

(** An empty output directory and a converter binary built at time 5. *)
Definition sample_world : World :=
  {| out_files := ∅; binary_mtime := Some 5%Z; trace := [] |}.

(** The command line without options. *)
Definition sample_args : Args :=
  {| output := [str "/"; str "repo"; str "AppScripts"];
     user_only := false; system_only := false |}.

End Generator.

(** ** The converter, [convert_pdfs_to_text.py] *)
Module Converter.

Record File := {
  st_mtime : Z;
  contents : pystr;
}.

(** A directory: its entries in scan order. *)
Abbreviation Dir := (list (pystr * File)).

Fixpoint lookup_entry (name : pystr) (d : Dir) : option File :=
  match d with
  | [] => None
  | (n, f) :: d' => if bool_decide (n = name) then Some f else lookup_entry name d'
  end.

(** Writing a file replaces the entry of that name or adds one. *)
Fixpoint write_entry (name : pystr) (f : File) (d : Dir) : Dir :=
  match d with
  | [] => [(name, f)]
  | (n, g) :: d' =>
      if bool_decide (n = name) then (n, f) :: d' else (n, g) :: write_entry name f d'
  end.

(** [sorted(directory.glob('*' + suffix))]: paths of one directory compare
    by name. *)
Definition entry_leb (e1 e2 : pystr * File) : bool := pystr_leb e1.1 e2.1.

Definition sorted_glob (suffix : pystr) (d : Dir) : Dir :=
  py_sorted entry_leb (filter (λ e, py_endswith suffix e.1) d).

Record ConvertOutcome := {
  convert_proc : Proc;
  convert_output : option File;  (* the text file it leaves, if any *)
}.

Record Env := {
  WORKSPACE_ROOT : Path;
  which : pystr → option pystr;
  source_mtime : option Z;                    (* [tools/pdf2text.swift], if it exists *)
  swiftc_run : list pystr → CompileOutcome;
  convert_run : list pystr → ConvertOutcome;  (* [pdf2text], by [argv] *)
  readme_mtime : Z;                           (* the time stamp [write_text] leaves *)
}.

(** What a run reads and changes.  The build directory is a directory or
    can be made; [AppScripts/text] may be a file in the way of
    [text_dir.mkdir(exist_ok=True)]. *)
Record World := {
  pdf_dir : option Dir;       (* [AppScripts], if it exists *)
  text_dir : option Dir;      (* [AppScripts/text], if it is a directory *)
  text_is_file : bool;        (* [AppScripts/text] exists and is no directory *)
  binary_mtime : option Z;    (* [tools/.build/pdf2text], if it exists *)
  trace : list effect;
}.

Definition M (A : Type) : Type := World → outcome A * World.

#[global] Instance M_ret : MRet M := λ A a w, (Return a, w).
#[global] Instance M_bind : MBind M := λ A B k m w,
  match m w with
  | (Return a, w') => k a w'
  | (Raise e, w') => (Raise e, w')
  | (Diverge, w') => (Diverge, w')
  end.

(** The world after further effects. *)
Definition extend (w : World) (es : list effect) : World :=
  {| pdf_dir := pdf_dir w; text_dir := text_dir w; text_is_file := text_is_file w;
     binary_mtime := binary_mtime w; trace := trace w ++ es |}.

Definition raise {A} (e : exn) : M A := λ w, (Raise e, w).
Definition emit (e : effect) : M unit := λ w, (Return (), extend w [e]).
Definition get {A} (f : World → A) : M A := λ w, (Return (f w), w).
Definition set_binary (t : option Z) : M unit := λ w,
  (Return (), {| pdf_dir := pdf_dir w; text_dir := text_dir w;
                 text_is_file := text_is_file w;
                 binary_mtime := t; trace := trace w |}).
Definition set_text_dir (d : Dir) : M unit := λ w,
  (Return (), {| pdf_dir := pdf_dir w; text_dir := Some d;
                 text_is_file := text_is_file w;
                 binary_mtime := binary_mtime w; trace := trace w |}).

Definition try_except {A} (body : M A) (handler : exn → option (M A)) : M A := λ w,
  match body w with
  | (Raise e, w') =>
      match handler e with
      | Some h => h w'
      | None => (Raise e, w')
      end
  | r => r
  end.

Section converter.
Variable env : Env.

Definition APPSCRIPTS_DIR : Path := WORKSPACE_ROOT env </> [str "AppScripts"].
Definition TOOLS_DIR : Path := WORKSPACE_ROOT env </> [str "tools"].
Definition TOOL_BUILD_DIR : Path := TOOLS_DIR </> [str ".build"].
Definition PDF2TEXT_SOURCE : Path := TOOLS_DIR </> [str "pdf2text.swift"].

Definition compile_error (error_output : pystr) : pystr :=
  if py_contains (str "this SDK is not supported by the compiler") error_output
     || py_contains (str "failed to build module 'Swift'") error_output
  then str "Swift compiler/toolchain mismatch: select the full Xcode toolchain via `sudo xcode-select -s /Applications/Xcode.app/Contents/Developer`."
  else str "Failed to compile converter: " ++ error_output.

Definition needs_rebuild (source_time : Z) (binary : option Z) : bool :=
  match binary with
  | None => true
  | Some binary_time => (binary_time <? source_time)%Z
  end.

Definition ensure_tool : M Path :=
  match source_mtime env with
  | None =>
      raise (ConversionError (str "Missing converter source at " ++ path_str PDF2TEXT_SOURCE))
  | Some source_time =>
      let binary_path := TOOL_BUILD_DIR </> [str "pdf2text"] in
      binary ← get binary_mtime;
      if needs_rebuild source_time binary then
        match which env (str "swiftc") with
        | None =>
            raise (ConversionError (str "swiftc not found; install Xcode toolchain to build converter."))
        | Some swiftc =>
            emit (log (str "Compiling PDF" ++ [8594] ++ str "text converter " ++ [8594]
                       ++ str " " ++ path_str binary_path));;
            let module_cache := TOOL_BUILD_DIR </> [str "ModuleCache"] in
            let command := [swiftc; path_str PDF2TEXT_SOURCE; str "-framework"; str "PDFKit";
                            str "-o"; path_str binary_path;
                            str "-module-cache-path"; path_str module_cache] in
            emit (Run command);;
            let result := swiftc_run env command in
            match compile_binary result with
            | Some t => set_binary (Some t)
            | None => mret ()
            end;;
            if bool_decide (returncode (compile_proc result) ≠ 0%Z) then
              let error_output :=
                py_strip (py_or (proc_stderr (compile_proc result))
                                (proc_stdout (compile_proc result))) in
              raise (ConversionError (compile_error error_output))
            else mret binary_path
        end
      else mret binary_path
  end.

(** The text of [README.md] for the entries of [text_dir]. *)
Definition readme_entries (d : Dir) : list pystr :=
  sorted_glob (str ".txt") d ≫= λ txt_file,
    if bool_decide (txt_file.1 = str "README.md") then []
    else [str "- [" ++ name_stem txt_file.1 ++ str "](" ++ txt_file.1 ++ str ")"].

Definition readme_lines (d : Dir) : list pystr :=
  let entries := readme_entries d in
  let lines := [str "# Extracted AppleScript Dictionaries"; [];
                str "Text exports generated from Objective-C scripting bridge headers."; []] in
  let lines :=
    match entries with
    | [] => lines ++ [str "No text exports available."]
    | _ => lines ++ entries
    end in
  lines ++ [[]].

Definition readme_text (d : Dir) : pystr := py_join [10] (readme_lines d).

Definition build_readme (text_path : Path) : M unit :=
  let readme_path := text_path </> [str "README.md"] in
  d ← get (λ w, default [] (text_dir w));
  let text := readme_text d in
  emit (WriteText readme_path text);;
  set_text_dir (write_entry (str "README.md")
                  {| st_mtime := readme_mtime env; contents := text |} d).

Definition convert_command (converter pdf_path txt_path : Path) : list pystr :=
  [path_str converter; path_str pdf_path; path_str txt_path].

(** [txt_path.exists() and txt_path.stat().st_mtime >= pdf_path.stat().st_mtime] *)
Definition up_to_date (txt_name : pystr) (pdf : File) (d : Dir) : bool :=
  match lookup_entry txt_name d with
  | Some txt => (st_mtime pdf <=? st_mtime txt)%Z
  | None => false
  end.

(** The [for] loop of [convert_pdfs], lines 93 to 102. *)
Fixpoint for_pdfs (converter text_path target_dir : Path) (pdf_files : Dir) : M unit :=
  match pdf_files with
  | [] => mret ()
  | (pdf_name, pdf) :: pdf_files =>
      let pdf_path := target_dir </> [pdf_name] in
      let txt_name := name_stem pdf_name ++ str ".txt" in
      let txt_path := text_path </> [txt_name] in
      d ← get (λ w, default [] (text_dir w));
      if up_to_date txt_name pdf d then
        emit (log (str "Skipping " ++ pdf_name ++ str ": text already up to date"));;
        for_pdfs converter text_path target_dir pdf_files
      else
        emit (log (str "Extracting text from " ++ pdf_name));;
        let command := convert_command converter pdf_path txt_path in
        emit (Run command);;
        let result := convert_run env command in
        match convert_output result with
        | Some txt => set_text_dir (write_entry txt_name txt d)
        | None => mret ()
        end;;
        if bool_decide (returncode (convert_proc result) ≠ 0%Z) then
          emit (warn (str "Failed to convert " ++ pdf_name ++ str ": "
                      ++ py_or (proc_stderr (convert_proc result))
                               (proc_stdout (convert_proc result))));;
          for_pdfs converter text_path target_dir pdf_files
        else for_pdfs converter text_path target_dir pdf_files
  end.

Definition convert_pdfs (target_dir : Path) : M unit :=
  target ← get pdf_dir;
  match target with
  | None =>
      raise (ConversionError (str "PDF directory " ++ path_str target_dir
                              ++ str " does not exist"))
  | Some entries =>
      match sorted_glob (str ".pdf") entries with
      | [] => emit (warn (str "No PDF files found in " ++ path_str target_dir))
      | pdf_files =>
          converter ← ensure_tool;
          let text_path := target_dir </> [str "text"] in
          (* [text_dir.mkdir(exist_ok=True)] *)
          is_file ← get text_is_file;
          if is_file : bool then
            raise (FileExistsError (str "[Errno 17] File exists: '" ++ path_str text_path
                                    ++ str "'"))
          else
            d ← get (λ w, default [] (text_dir w));
            set_text_dir d;;
            for_pdfs converter text_path target_dir pdf_files;;
            build_readme text_path
      end
  end.

Definition main : M Z :=
  try_except
    (convert_pdfs APPSCRIPTS_DIR;; mret 0%Z)
    (λ e, match e with
          | ConversionError exc => Some (emit (warn exc);; mret 1%Z)
          | _ => None
          end).
End converter.

(** The names [sorted(text_dir.glob('*.txt'))] lists. *)
Definition txt_names (d : Dir) : list pystr := (sorted_glob (str ".txt") d).*1.

(** [f'- [{txt_file.stem}]({rel_path})'] *)
Definition bullet (name : pystr) : pystr :=
  str "- [" ++ name_stem name ++ str "](" ++ name ++ str ")".

(** ** Sample runs of the converter *)

(** The work space is [/repo]; the converter source exists, [swiftc]
    compiles it, and [pdf2text] writes the text ["new"] at time 9 and
    exits with [convert_rc]. *)
Definition sample_env (convert_rc : Z) : Env := {|
  WORKSPACE_ROOT := [str "/"; str "repo"];
  which := λ _, Some (str "/usr/bin/swiftc");
  source_mtime := Some 1%Z;
  swiftc_run := λ _,
    {| compile_proc := {| returncode := 0; proc_stdout := []; proc_stderr := [] |};
       compile_binary := Some 10%Z |};
  convert_run := λ _,
    {| convert_proc :=
         {| returncode := convert_rc; proc_stdout := []; proc_stderr := str "failed" |};
       convert_output := Some {| st_mtime := 9; contents := str "new" |} |};
  readme_mtime := 9;
|}.

(** [AppScripts] with the given entries, [AppScripts/text] as given, and
    a converter binary built at time 5. *)
Definition sample_world (pdfs : Dir) (texts : option Dir) : World :=
  {| pdf_dir := Some pdfs; text_dir := texts; text_is_file := false;
     binary_mtime := Some 5%Z; trace := [] |}.

End Converter.

(** * Properties

    ** [sanitize_filename] *)

Lemma printable_isspace ch : printable ch → py_isspace ch = bool_decide (ch = 32).
Proof.
  unfold printable, py_isspace. intros [H1 H2].
  replace (ch <=? 13) with false by (symmetry; apply N.leb_gt; lia).
  replace (28 <=? ch) with true by (symmetry; apply N.leb_le; lia).
  replace (8192 <=? ch) with false by (symmetry; apply N.leb_gt; lia).
  repeat match goal with
  | |- context [ch =? ?b] => replace (ch =? b) with false by (symmetry; apply N.eqb_neq; lia)
  end.
  rewrite !andb_false_r, !orb_false_r. cbn [andb orb].
  case_bool_decide; [by subst|apply N.leb_gt; lia].
Qed.

Lemma flush_words word :
  Forall (λ ch, py_isspace ch = false) word →
  Forall (λ w, w ≠ [] ∧ Forall (λ ch, py_isspace ch = false) w) (flush word).
Proof. intros H. destruct word; simpl; [constructor|]. constructor; [|constructor]. split; [done|done]. Qed.

Lemma py_split_go_words word s :
  Forall (λ ch, py_isspace ch = false) word →
  Forall (λ w, w ≠ [] ∧ Forall (λ ch, py_isspace ch = false) w) (py_split_go word s).
Proof.
  revert word. induction s as [|c s IH]; intros word Hw; simpl.
  - by apply flush_words.
  - destruct (py_isspace c) eqn:Hc.
    + apply Forall_app. split; [by apply flush_words|]. by apply IH.
    + apply IH. apply Forall_app. split; [done|]. by constructor.
Qed.

Lemma concat_flush word : concat (flush word) = word.
Proof. destruct word; simpl; by rewrite ?app_nil_r. Qed.

Lemma py_split_go_concat word s :
  concat (py_split_go word s) = word ++ filter (λ ch, py_isspace ch = false) s.
Proof.
  revert word. induction s as [|c s IH]; intros word; simpl.
  - by rewrite concat_flush, filter_nil, app_nil_r.
  - destruct (py_isspace c) eqn:Hc.
    + rewrite concat_app, concat_flush, IH. simpl.
      rewrite filter_cons_False; [done|]. by rewrite Hc.
    + rewrite IH, filter_cons_True by done. by rewrite <-app_assoc.
Qed.

Lemma has_ws_run_app_nonspace w t :
  nonspace w → has_ws_run (w ++ t) = has_ws_run t.
Proof.
  induction 1 as [|a w Ha Hw IH]; simpl; [done|].
  rewrite Ha. simpl. destruct (w ++ t) eqn:E; [|done].
  rewrite <-IH. done.
Qed.

Lemma py_join_space_shape ws :
  Forall (λ w, w ≠ [] ∧ nonspace w) ws →
  has_ws_run (py_join (str " ") ws) = false ∧
  (∀ a, head (py_join (str " ") ws) = Some a → py_isspace a = false) ∧
  (∀ a, last (py_join (str " ") ws) = Some a → py_isspace a = false) ∧
  filter (λ ch, ch ≠ 32) (py_join (str " ") ws) = concat ws.
Proof.
  induction 1 as [|w ws [Hne Hw] Hws (IH1 & IH2 & IH3 & IH4)]; simpl.
  { done. }
  assert (Hf : filter (λ ch, ch ≠ 32) w = w).
  { clear -Hw. induction Hw as [|a w Ha Hw IH]; [done|].
    rewrite filter_cons_True, IH; [done|]. intros ->. done. }
  destruct ws as [|w' ws].
  { rewrite app_nil_r. split_and!.
    - rewrite <-(app_nil_r w). by rewrite has_ws_run_app_nonspace.
    - intros a Ha. destruct w as [|c w]; [done|]. simpl in Ha. injection Ha as ->.
      by inversion Hw.
    - intros a Ha. unfold nonspace in Hw. rewrite Forall_forall in Hw.
      apply Hw. by apply last_Some_elem_of.
    - done. }
  split_and!.
  - rewrite has_ws_run_app_nonspace by done.
    change (str " " ++ ?t) with (32 :: t). 
    remember (py_join (str " ") (w' :: ws)) as t. simpl.
    destruct t as [|b t]; [done|]. rewrite (IH2 b) by done. exact IH1.
  - intros a Ha. destruct w as [|c w]; [done|]. simpl in Ha. injection Ha as ->.
    by inversion Hw.
  - intros a. change (str " " ++ ?t) with (32 :: t). 
    remember (py_join (str " ") (w' :: ws)) as t.
    destruct t as [|b t].
    { exfalso. inversion Hws as [|? ? [Hne' Hw'] ?]; subst. simpl in Heqt.
      destruct ws; destruct w'; simplify_eq/=. }
    rewrite last_app_cons, last_cons_cons. apply IH3.
  - rewrite filter_app, Hf. change (str " " ++ ?t) with (32 :: t).
    rewrite filter_cons_False by (intros H; by apply H).
    by rewrite IH4.
Qed.

Lemma has_ws_run_false l1 a b l2 :
  has_ws_run (l1 ++ a :: b :: l2) = false → ¬ (py_isspace a = true ∧ py_isspace b = true).
Proof.
  induction l1 as [|c l1 IH]; simpl.
  - intros H [Ha Hb]. rewrite Ha, Hb in H. done.
  - destruct (l1 ++ a :: b :: l2) eqn:E; [by destruct l1|].
    intros H. apply orb_false_iff in H as [_ H]. by apply IH.
Qed.

Lemma py_replace_Forall (P : N → Prop) old new s :
  P new → Forall P s → Forall P (py_replace old new s).
Proof.
  intros Hnew Hs. unfold py_replace. apply Forall_fmap.
  eapply Forall_impl; [done|]. intros ch Hch. simpl. by destruct (ch =? old).
Qed.

Lemma py_replace_ne old new s :
  new ≠ old → Forall (λ ch, ch ≠ old) (py_replace old new s).
Proof.
  intros Hne. unfold py_replace. apply Forall_fmap, Forall_forall. intros ch _. simpl.
  destruct (N.eqb_spec ch old); done.
Qed.

Lemma py_join_Forall (P : N → Prop) sep ws :
  Forall P sep → Forall (Forall P) ws → Forall P (py_join sep ws).
Proof.
  intros Hsep. induction 1 as [|w ws Hw Hws IH]; simpl; [done|].
  destruct ws; [done|]. apply Forall_app. split; [done|]. apply Forall_app. done.
Qed.

Lemma Forall_concat_inv {A} (P : A → Prop) (ls : list (list A)) :
  Forall P (concat ls) → Forall (Forall P) ls.
Proof.
  induction ls as [|l ls IH]; simpl; [done|].
  rewrite Forall_app. intros [??]. constructor; auto.
Qed.

Section sanitize_facts.
Variable nfkd : pystr → pystr.

Lemma sanitize_filename_unfold name :
  sanitize_filename nfkd name =
  match cleaned_of nfkd name with [] => str "Untitled" | _ => cleaned_of nfkd name end.
Proof. done. Qed.

Lemma replaced_clean name :
  Forall clean_char (py_replace 58 45 (py_replace 47 45 (filter printable (nfkd name)))).
Proof.
  set (s := filter printable (nfkd name)).
  assert (Hs : Forall printable s).
  { apply Forall_forall. intros ch Hch. by apply list_elem_of_filter in Hch as [? _]. }
  assert (H1 : Forall (λ ch, printable ch ∧ ch ≠ 47) (py_replace 47 45 s)).
  { apply Forall_and. split.
    - apply py_replace_Forall; [unfold printable; lia|done].
    - by apply py_replace_ne. }
  apply Forall_and. split; [|apply Forall_and; split].
  - apply py_replace_Forall; [unfold printable; lia|]. eapply Forall_impl; [done|]. by intros ? [??].
  - apply py_replace_Forall; [done|]. eapply Forall_impl; [done|]. by intros ? [??].
  - by apply py_replace_ne.
Qed.

Lemma split_words_clean name :
  Forall (λ w, w ≠ [] ∧ nonspace w)
    (py_split (py_replace 58 45 (py_replace 47 45 (filter printable (nfkd name))))) ∧
  Forall (Forall clean_char)
    (py_split (py_replace 58 45 (py_replace 47 45 (filter printable (nfkd name))))).
Proof.
  split.
  - apply py_split_go_words. constructor.
  - apply Forall_concat_inv. unfold py_split. rewrite py_split_go_concat. simpl.
    apply Forall_forall. intros ch Hch. apply list_elem_of_filter in Hch as [_ Hch].
    revert ch Hch. apply Forall_forall, replaced_clean.
Qed.

Lemma cleaned_of_clean name : Forall clean_char (cleaned_of nfkd name).
Proof.
  apply py_join_Forall; [|apply split_words_clean].
  repeat constructor; unfold printable; simpl; lia.
Qed.
End sanitize_facts.

Lemma py_replace_filter_space old new s :
  old ≠ 32 → new ≠ 32 →
  filter (λ ch, ch ≠ 32) (py_replace old new s) = py_replace old new (filter (λ ch, ch ≠ 32) s).
Proof.
  intros Ho Hn. unfold py_replace. induction s as [|c s IH]; [done|].
  rewrite fmap_cons. destruct (decide (c = 32)) as [->|Hc].
  - destruct (N.eqb_spec 32 old); [congruence|].
    rewrite !filter_cons_False by (intros H; by apply H). done.
  - rewrite (filter_cons_True _ c s) by done. rewrite fmap_cons, <-IH.
    rewrite filter_cons_True; [done|]. by destruct (c =? old).
Qed.

Section sanitize_kept.
Variable nfkd : pystr → pystr.

Lemma cleaned_of_kept name :
  filter (λ ch, ch ≠ 32) (cleaned_of nfkd name) = kept_of nfkd name.
Proof.
  unfold cleaned_of.
  destruct (split_words_clean nfkd name) as [Hw Hc].
  destruct (py_join_space_shape _ Hw) as (_ & _ & _ & ->).
  unfold py_split. rewrite py_split_go_concat. simpl.
  pose proof (replaced_clean nfkd name) as Hr.
  set (r := py_replace 58 45 _) in *.
  transitivity (filter (λ ch, ch ≠ 32) r).
  { clear Hw Hc. clearbody r. induction Hr as [|c r [Hp _] Hr IH]; [done|].
    pose proof (printable_isspace c Hp) as Hsp.
    destruct (decide (c = 32)) as [->|Hc32].
    - rewrite (filter_cons_False (λ ch, py_isspace ch = false)) by done.
      rewrite (filter_cons_False (λ ch, ch ≠ 32)) by (intros H; by apply H).
      by rewrite IH.
    - rewrite (filter_cons_True (λ ch, py_isspace ch = false))
        by (rewrite Hsp; by case_bool_decide).
      rewrite (filter_cons_True (λ ch, ch ≠ 32)) by done.
      by rewrite IH. }
  subst r. unfold kept_of.
  rewrite !py_replace_filter_space by done.
  rewrite list_filter_filter.
  do 2 f_equal. apply list_filter_iff. intros ch. tauto.
Qed.

Lemma cleaned_of_nil name : cleaned_of nfkd name = [] ↔ kept_of nfkd name = [].
Proof.
  rewrite <-cleaned_of_kept. split; [by intros ->|].
  intros Hf. unfold cleaned_of in *.
  destruct (split_words_clean nfkd name) as [Hw _].
  destruct (py_join_space_shape _ Hw) as (_ & _ & _ & Hc).
  rewrite Hc in Hf. destruct Hw as [|w ws [Hne _] _]; [done|].
  simpl in Hf. apply app_eq_nil in Hf as [? _]. done.
Qed.
End sanitize_kept.

Lemma sanitize_filename_shape (nfkd : pystr → pystr) (name : pystr) :
  let result := sanitize_filename nfkd name in
  Forall (λ ch, printable ch ∧ ch ≠ 47 ∧ ch ≠ 58) result ∧
  (∀ l1 a b l2, result = l1 ++ a :: b :: l2 →
     ¬ (py_isspace a = true ∧ py_isspace b = true)) ∧
  (∀ a, head result = Some a → py_isspace a = false) ∧
  (∀ a, last result = Some a → py_isspace a = false) ∧
  filter (λ ch, ch ≠ 32) result =
    match kept_of nfkd name with [] => str "Untitled" | kept => kept end.
Proof.
  intros result. subst result. rewrite sanitize_filename_unfold.
  pose proof (cleaned_of_clean nfkd name) as Hclean.
  pose proof (cleaned_of_kept nfkd name) as Hkept.
  pose proof (cleaned_of_nil nfkd name) as Hnil.
  destruct (split_words_clean nfkd name) as [Hw _].
  destruct (py_join_space_shape _ Hw) as (Hrun & Hhead & Hlast & _).
  fold (cleaned_of nfkd name) in Hrun, Hhead, Hlast.
  destruct (cleaned_of nfkd name) as [|c cleaned] eqn:E.
  - rewrite (proj1 Hnil eq_refl). split_and!.
    + repeat constructor; unfold printable; vm_compute; try done; by intros [=].
    + intros l1 a b l2 Heq. apply (has_ws_run_false l1 a b l2). by rewrite <-Heq.
    + intros a [= <-]. done.
    + intros a. vm_compute. intros [= <-]. done.
    + done.
  - split_and!; [done| |done|done|].
    + intros l1 a b l2 Heq. apply (has_ws_run_false l1 a b l2). by rewrite <-Heq.
    + rewrite Hkept. destruct (kept_of nfkd name) eqn:E'; [|done].
      by pose proof (proj2 Hnil eq_refl).
Qed.

(** *** Words and gaps *)

Lemma py_split_go_nonspace (word w s : pystr) :
  nonspace w → py_split_go word (w ++ s) = py_split_go (word ++ w) s.
Proof.
  intros Hw. revert word. induction Hw as [|c w Hc Hw IH]; intros word; cbn.
  - by rewrite app_nil_r.
  - rewrite Hc, IH. by rewrite <-app_assoc.
Qed.

Lemma py_split_go_trail (word trail : pystr) :
  whitespace trail → py_split_go word trail = flush word.
Proof.
  intros Htrail. revert word. induction Htrail as [|c trail Hc Htrail IH]; intros word; cbn.
  - done.
  - rewrite Hc, IH. cbn. by rewrite app_nil_r.
Qed.

Lemma py_split_go_whitespace (word gap s : pystr) :
  whitespace gap → gap ≠ [] → py_split_go word (gap ++ s) = flush word ++ py_split_go [] s.
Proof.
  intros Hgap Hne. destruct Hgap as [|c gap Hc Hgap]; [done|]. cbn. rewrite Hc. f_equal.
  clear Hne Hc. induction Hgap as [|c' gap Hc' Hgap IH]; [done|]. cbn. by rewrite Hc'.
Qed.

Lemma py_split_lead (lead s : pystr) : whitespace lead → py_split (lead ++ s) = py_split s.
Proof.
  intros Hlead. unfold py_split. destruct lead as [|c lead]; [done|].
  by rewrite py_split_go_whitespace.
Qed.

Lemma glue_cons (c : N) (w : pystr) (rest : list (pystr * pystr)) : glue (c :: w) rest = c :: glue w rest.
Proof. by destruct rest as [|[gap w'] rest]. Qed.

Lemma glue_nonempty (w : pystr) (rest : list (pystr * pystr)) : w ≠ [] → glue w rest ≠ [].
Proof. destruct w; [done|]. by rewrite glue_cons. Qed.

(** Every string is whitespace, or words with gaps between them inside
    leading and trailing whitespace. *)
Lemma words_and_gaps (s : pystr) :
  whitespace s ∨
  ∃ lead w rest trail,
    s = lead ++ glue w rest ++ trail ∧ whitespace lead ∧ whitespace trail ∧
    w ≠ [] ∧ nonspace w ∧ Forall gap_and_word rest.
Proof.
  induction s as [|c s IH]; [left; constructor|].
  destruct (py_isspace c) eqn:Hc.
  - destruct IH as [Hs|(lead & w & rest & trail & -> & Hlead & Htrail & Hne & Hw & Hrest)].
    + left. by constructor.
    + right. exists (c :: lead), w, rest, trail. split_and!; try done. by constructor.
  - right.
    destruct IH as [Hs|(lead & w & rest & trail & -> & Hlead & Htrail & Hne & Hw & Hrest)].
    + exists [], [c], [], s. split_and!; try done; by repeat constructor.
    + destruct lead as [|l lead].
      * exists [], (c :: w), rest, trail. rewrite glue_cons.
        split_and!; try done. by constructor.
      * exists [], [c], ((l :: lead, w) :: rest), trail. cbn [glue app].
        split_and!; try done.
        -- by rewrite <-!app_assoc.
        -- constructor.
        -- by repeat constructor.
        -- constructor; [|done]. by split_and!.
Qed.

Lemma py_split_go_glue (word w : pystr) (rest : list (pystr * pystr)) (trail : pystr) :
  nonspace w → whitespace trail → Forall gap_and_word rest →
  py_split_go word (glue w rest ++ trail) = flush (word ++ w) ++ rest.*2.
Proof.
  intros Hw Htrail Hrest. revert word w Hw.
  induction Hrest as [|[gap w'] rest (Hgap & Hws & Hne & Hw') Hrest IH]; intros word w Hw.
  - cbn [glue fmap list_fmap]. rewrite py_split_go_nonspace, py_split_go_trail by done.
    by rewrite app_nil_r.
  - cbn [glue]. cbn in Hgap, Hws, Hne, Hw'.
    rewrite <-!app_assoc, py_split_go_nonspace, py_split_go_whitespace by done.
    rewrite IH by done. rewrite fmap_cons. cbn. by destruct w'.
Qed.

Lemma py_join_glue (w : pystr) (rest : list (pystr * pystr)) :
  py_join (str " ") (w :: rest.*2) = glue w ((λ gw, (str " ", gw.2)) <$> rest).
Proof.
  revert w. induction rest as [|[gap w'] rest IH]; intros w; [done|].
  rewrite !fmap_cons. cbn [py_join glue fst snd]. by rewrite <-IH.
Qed.

(** [' '.join(s.split())] on words with gaps. *)
Lemma collapse_spec (s : pystr) :
  (whitespace s ∧ py_join (str " ") (py_split s) = []) ∨
  (∃ lead w rest trail,
     s = lead ++ glue w rest ++ trail ∧ whitespace lead ∧ whitespace trail ∧
     w ≠ [] ∧ nonspace w ∧ Forall gap_and_word rest ∧
     py_join (str " ") (py_split s) = glue w ((λ gw, (str " ", gw.2)) <$> rest)).
Proof.
  destruct (words_and_gaps s)
    as [Hs|(lead & w & rest & trail & -> & Hlead & Htrail & Hne & Hw & Hrest)].
  - left. split; [done|]. unfold py_split. by rewrite py_split_go_trail.
  - right. exists lead, w, rest, trail. split_and!; try done.
    rewrite py_split_lead by done. unfold py_split.
    rewrite py_split_go_glue by done. cbn [app].
    replace (flush w) with [w] by (by destruct w). apply py_join_glue.
Qed.

(** C7: for every input and every normalization, the name
    [sanitize_filename] returns holds only printable ASCII characters,
    none of them ['/'] or [':']; no two adjacent characters of it are
    whitespace and it neither starts nor ends with whitespace; apart
    from its single spaces it is the normalized input without the
    characters outside printable ASCII and without whitespace, ['/'] and
    [':'] replaced by ['-'] (or ['Untitled'] when nothing is left); and
    the whitespace is collapsed: when the normalized input, restricted
    to printable ASCII and with ['/'] and [':'] replaced, is words with
    gaps of whitespace between them inside leading and trailing
    whitespace, the result is these words in order with one space for
    every gap and nothing before or after; when it is whitespace alone,
    the result is ['Untitled']. *)
Theorem sanitize_filename_printable_ascii (nfkd : pystr → pystr) (name : pystr) :
  let result := sanitize_filename nfkd name in
  Forall (λ ch, printable ch ∧ ch ≠ 47 ∧ ch ≠ 58) result ∧
  (∀ l1 a b l2, result = l1 ++ a :: b :: l2 →
     ¬ (py_isspace a = true ∧ py_isspace b = true)) ∧
  (∀ a, head result = Some a → py_isspace a = false) ∧
  (∀ a, last result = Some a → py_isspace a = false) ∧
  filter (λ ch, ch ≠ 32) result =
    match kept_of nfkd name with [] => str "Untitled" | kept => kept end ∧
  ((whitespace (replaced_of nfkd name) ∧ result = str "Untitled") ∨
   (∃ lead w rest trail,
      replaced_of nfkd name = lead ++ glue w rest ++ trail ∧
      whitespace lead ∧ whitespace trail ∧
      w ≠ [] ∧ nonspace w ∧
      Forall gap_and_word rest ∧
      result = glue w ((λ gw, (str " ", gw.2)) <$> rest))).
Proof.
  intros result.
  destruct (sanitize_filename_shape nfkd name) as (H1 & H2 & H3 & H4 & H5).
  split_and!; try done.
  subst result. rewrite sanitize_filename_unfold. unfold cleaned_of.
  fold (replaced_of nfkd name).
  destruct (collapse_spec (replaced_of nfkd name))
    as [[Hs ->]|(lead & w & rest & trail & Heq & Hlead & Htrail & Hne & Hw & Hrest & ->)].
  - by left.
  - right. exists lead, w, rest, trail. split_and!; try done.
    destruct (glue w (_ <$> rest)) eqn:Hglue; [|done].
    by apply glue_nonempty in Hglue.
Qed.

(** C10: [sanitize_filename] never returns the empty string, and when
    every character of the normalized input is outside printable ASCII or
    is whitespace it returns ['Untitled']. *)
Theorem sanitize_filename_never_empty (nfkd : pystr → pystr) (name : pystr) :
  sanitize_filename nfkd name ≠ [] ∧
  (Forall (λ ch, ¬ printable ch ∨ py_isspace ch = true) (nfkd name) →
   sanitize_filename nfkd name = str "Untitled").
Proof.
  rewrite sanitize_filename_unfold. split.
  - destruct (cleaned_of nfkd name); done.
  - intros Hall. rewrite (proj2 (cleaned_of_nil nfkd name)); [done|].
    unfold kept_of. replace (filter _ (nfkd name)) with (@nil N); [done|].
    symmetry. induction Hall as [|c s Hc Hs IH]; [done|].
    rewrite filter_cons_False; [done|]. intros [Hp Hne]. destruct Hc as [Hc|Hc]; [done|].
    rewrite printable_isspace in Hc by done. by case_bool_decide.
Qed.

(** C10 at a name of two CJK characters, a no-break space and a
    combining accent. *)
Lemma sanitize_filename_never_empty_witness :
  sanitize_filename nfkd_sample [20013; 25991; 160; 769] = str "Untitled".
Proof.
  apply (proj2 (sanitize_filename_never_empty nfkd_sample [20013; 25991; 160; 769])).
  apply (bool_decide_unpack _). vm_compute. reflexivity.
Defined.

(** ** [unique_name] *)

#[global] Instance N_of_ascii_inj : Inj (=) (=) Ascii.N_of_ascii.
Proof.
  intros a b Hab.
  rewrite <-(Ascii.ascii_N_embedding a), <-(Ascii.ascii_N_embedding b). by rewrite Hab.
Qed.

#[global] Instance str_inj : Inj (=) (=) str.
Proof.
  intros s t H. unfold str in H. apply (inj _) in H.
  rewrite <-(String.string_of_list_ascii_of_string s), <-(String.string_of_list_ascii_of_string t).
  by rewrite H.
Qed.

Lemma numbered_inj base j k : numbered base j = numbered base k → j = k.
Proof.
  unfold numbered. intros H.
  apply app_inv_head, app_inv_head, app_inv_tail in H.
  by apply (inj str), (inj pretty) in H.
Qed.

Lemma numbered_ne_base base k : numbered base k ≠ base.
Proof.
  unfold numbered. intros H. apply (f_equal length) in H.
  rewrite !length_app in H. simpl in H. lia.
Qed.

Section unique_name_facts.
Variables (base : pystr) (used : gset pystr).

Lemma unique_name_loop_Some fuel candidate counter name :
  unique_name_loop fuel base candidate counter used = Some name →
  (name ∉ used) ∧ (name = candidate ∨ (∃ j, counter ≤ j ∧ name = numbered base j)).
Proof.
  revert candidate counter.
  induction fuel as [|fuel IH]; intros candidate counter; simpl; [done|].
  case_decide as Hin.
  - intros H. apply IH in H as [Hnot [->|(j & Hj & ->)]]; (split; [done|]); right.
    + exists counter. split; [lia|done].
    + exists j. split; [lia|done].
  - intros [= <-]. auto.
Qed.

Lemma unique_name_loop_None fuel candidate counter :
  unique_name_loop (S fuel) base candidate counter used = None →
  (candidate ∈ used) ∧
  ∀ i, (i < fuel)%nat → numbered base (counter + N.of_nat i) ∈ used.
Proof.
  revert candidate counter.
  induction fuel as [|fuel IH]; intros candidate counter.
  - simpl. case_decide; [|done]. intros _. split; [done|]. intros; lia.
  - intros H. change (unique_name_loop (S (S fuel)) base candidate counter used)
      with (if decide (candidate ∈ used)
            then unique_name_loop (S fuel) base (numbered base counter) (counter + 1) used
            else Some candidate) in H.
    case_decide as Hcand; [|done]. split; [done|].
    apply IH in H as [Hfirst Hrest]. intros [|i] Hi.
    + by rewrite N.add_0_r.
    + replace (counter + N.of_nat (S i)) with (counter + 1 + N.of_nat i) by lia.
      apply Hrest. lia.
Qed.

(** The loop ends within [size used + 1] membership tests. *)
Lemma unique_name_loop_terminates :
  is_Some (unique_name_loop (S (size used)) base base 2 used).
Proof.
  destruct (unique_name_loop _ _ _ _ _) as [name|] eqn:E; [by eexists|].
  exfalso. apply unique_name_loop_None in E as [Hbase Hnum].
  set (tried := base :: ((λ i, numbered base (2 + N.of_nat i)) <$> seq 0 (size used))).
  assert (Hdup : NoDup tried).
  { constructor.
    - intros Hin. apply list_elem_of_fmap in Hin as (i & Hi & _).
      by apply (numbered_ne_base base (2 + N.of_nat i)).
    - apply NoDup_fmap_2_strong; [|apply NoDup_seq].
      intros i j _ _ Hij. apply numbered_inj in Hij. lia. }
  assert (Hsub : list_to_set tried ⊆ used).
  { intros x Hx. apply elem_of_list_to_set in Hx.
    apply elem_of_cons in Hx as [->|Hx]; [done|].
    apply list_elem_of_fmap in Hx as (i & -> & Hi).
    apply Hnum. apply elem_of_seq in Hi. lia. }
  apply subseteq_size in Hsub.
  rewrite size_list_to_set in Hsub by done.
  unfold tried in Hsub. simpl in Hsub. rewrite length_fmap, length_seq in Hsub. lia.
Qed.

Lemma unique_name_spec :
  ∃ name, unique_name base used = Some (name, {[name]} ∪ used) ∧
          (name ∉ used) ∧ (base ∉ used → name = base).
Proof.
  destruct unique_name_loop_terminates as [name E].
  exists name. unfold unique_name. rewrite E. simpl. split; [done|].
  split; [by apply unique_name_loop_Some in E as [? _]|].
  intros Hfresh. simpl in E. case_decide; [done|]. by injection E.
Qed.
End unique_name_facts.

(** C4: a sequence of base names fed through one shared [used] set
    always gets its names (the loop of [unique_name] ends); the names
    returned are pairwise distinct and none of them was in the set
    before; the set afterwards holds exactly the old names and the
    returned ones; and a call whose base name is neither in the initial
    set nor among the names returned earlier returns the base name
    unchanged. *)
Theorem unique_name_injective (bases : list pystr) (used : gset pystr) :
  ∃ names,
    unique_names bases used = Some (names, list_to_set names ∪ used) ∧
    length names = length bases ∧
    NoDup names ∧
    (∀ name, name ∈ names → name ∉ used) ∧
    (∀ i base, bases !! i = Some base → base ∉ used → base ∉ take i names →
       names !! i = Some base).
Proof.
  revert used. induction bases as [|base bases IH]; intros used.
  { exists []. simpl. split_and!; [|done|constructor|set_solver|done].
    f_equal. f_equal. cbn. by rewrite (left_id_L ∅ (∪)). }
  destruct (unique_name_spec base used) as (name & Hname & Hfresh & Hfirst).
  destruct (IH ({[name]} ∪ used)) as (names & Hnames & Hlen & Hdup & Hnew & Hnth).
  exists (name :: names). simpl. rewrite Hname. simpl. rewrite Hnames. simpl.
  split_and!.
  - f_equal. f_equal. cbn [list_to_set foldr].
    by rewrite (comm_L (∪) {[name]} (list_to_set names)), <-(assoc_L (∪)).
  - by rewrite Hlen.
  - constructor; [|done]. intros Hin. apply Hnew in Hin. set_solver.
  - intros x Hx. apply elem_of_cons in Hx as [->|Hx]; [done|].
    apply Hnew in Hx. set_solver.
  - intros [|i] b Hb Hused Hearlier; simpl in *.
    + injection Hb as ->. by rewrite Hfirst.
    + apply Hnth; [done| |].
      * intros Hin. apply elem_of_union in Hin as [Hin|Hin]; [|done].
        apply elem_of_singleton in Hin as ->. apply Hearlier. left.
      * intros Hin. apply Hearlier. by right.
Qed.

(** ** Sorting and [find_script_resources] *)

Section sorting_facts.
Context {A : Type} (leb : A → A → bool).

Lemma insert_sorted_perm x l : insert_sorted leb x l ≡ₚ x :: l.
Proof.
  induction l as [|y l IH]; simpl; [done|].
  destruct (leb x y); [done|]. rewrite IH. apply Permutation_swap.
Qed.

Lemma py_sorted_perm l : py_sorted leb l ≡ₚ l.
Proof.
  induction l as [|x l IH]; simpl; [done|].
  rewrite insert_sorted_perm. by rewrite IH.
Qed.

Hypothesis leb_total : ∀ x y, leb x y = true ∨ leb y x = true.
Hypothesis leb_trans : ∀ x y z, leb x y = true → leb y z = true → leb x z = true.

Lemma insert_sorted_sorted x l :
  StronglySorted (λ a b, leb a b = true) l →
  StronglySorted (λ a b, leb a b = true) (insert_sorted leb x l).
Proof.
  induction 1 as [|y l Hl IH Hy]; simpl; [repeat constructor|].
  destruct (leb x y) eqn:Hxy.
  - constructor; [by constructor|]. constructor; [done|].
    eapply Forall_impl; [exact Hy|]. intros z Hz. by eapply leb_trans.
  - constructor; [done|]. rewrite insert_sorted_perm. constructor; [|done].
    destruct (leb_total x y); congruence.
Qed.

Lemma py_sorted_sorted l : StronglySorted (λ a b, leb a b = true) (py_sorted leb l).
Proof.
  induction l as [|x l IH]; simpl; [constructor|]. by apply insert_sorted_sorted.
Qed.

(** The first element of the sorted list is a least element of the list. *)
Lemma py_sorted_head l x rest :
  py_sorted leb l = x :: rest → x ∈ l ∧ ∀ y, y ∈ l → leb x y = true.
Proof.
  intros Heq. pose proof (py_sorted_perm l) as Hperm.
  pose proof (py_sorted_sorted l) as Hsorted. rewrite Heq in Hperm, Hsorted.
  split; [rewrite <-Hperm; left|].
  intros y Hy. rewrite <-Hperm in Hy. apply elem_of_cons in Hy as [->|Hy].
  - destruct (leb_total x x); done.
  - inversion Hsorted as [|?? _ Hall]; subst. rewrite Forall_forall in Hall. by apply Hall.
Qed.
End sorting_facts.

Lemma py_sorted_nil {A} (leb : A → A → bool) l : py_sorted leb l = [] → l = [].
Proof.
  intros H. pose proof (py_sorted_perm leb l) as Hp. rewrite H in Hp.
  by apply Permutation_nil_l in Hp.
Qed.

Lemma key_leb_spec k1 k2 :
  key_leb k1 k2 = true ↔ k1.1 < k2.1 ∨ (k1.1 = k2.1 ∧ k1.2 ≤ k2.2).
Proof.
  unfold key_leb. rewrite orb_true_iff, andb_true_iff, N.ltb_lt, N.eqb_eq, N.leb_le. done.
Qed.

Lemma sdef_leb_total p q : sdef_leb p q = true ∨ sdef_leb q p = true.
Proof. unfold sdef_leb. rewrite !key_leb_spec. lia. Qed.

Lemma sdef_leb_trans p q r :
  sdef_leb p q = true → sdef_leb q r = true → sdef_leb p r = true.
Proof. unfold sdef_leb. rewrite !key_leb_spec. lia. Qed.

Lemma find_script_resources_search fs app_path info temp_dir :
  declares_definition info = false →
  find_script_resources fs app_path info temp_dir = (search_resources fs app_path, []).
Proof.
  unfold declares_definition, find_script_resources.
  destruct (OSAScriptingDefinition info) as [[[|??]|[|??]|?]|]; done.
Qed.

Lemma sdef_key_english p : has_part (str "en.lproj") p = true → (sdef_key p).1 = 0.
Proof. unfold sdef_key. intros ->. by destruct (negb _). Qed.

Lemma sdef_key_outside p : outside_lproj p → (sdef_key p).1 = 0.
Proof.
  unfold sdef_key, has_part, outside_lproj. intros Hout.
  case_bool_decide as Hin; [|done]. exfalso.
  rewrite Forall_forall in Hout. apply Hout in Hin. done.
Qed.

(** C1, amended: for a bundle whose [Info.plist] declares no scripting
    definition, (a) when the Resources tree holds an [.sdef] file under
    [en.lproj] and one outside every localization folder, one [.sdef]
    file is selected and it is no deeper than either of the two: the
    English file and the non-localized file rank alike, and the
    shallowest path wins (the non-localized one when it is strictly the
    shallowest, the English one when that is); (b) when there is no
    [.sdef] file and no [.scriptSuite] file has its [.scriptTerminology]
    companion, the result is [None]. *)
Theorem find_script_resources_fallback (fs : FS) (app_path : Path) (info : Info)
    (temp_dir : Path) :
  declares_definition info = false →
  let found := (find_script_resources fs app_path info temp_dir).1 in
  let sdefs := fs_rglob fs (resource_root app_path) (str "*.sdef") in
  let suites := fs_rglob fs (resource_root app_path) (str "*.scriptSuite") in
  (fs_exists fs (resource_root app_path) = true →
   ∀ english plain,
     english ∈ sdefs → has_part (str "en.lproj") english = true →
     plain ∈ sdefs → outside_lproj plain →
     ∃ best, found = Some [best] ∧ best ∈ sdefs ∧
       (length best ≤ length english)%nat ∧ (length best ≤ length plain)%nat ∧
       ((∀ p, p ∈ sdefs → p ≠ plain → (length plain < length p)%nat) → best = plain) ∧
       ((∀ p, p ∈ sdefs → p ≠ english → (length english < length p)%nat) → best = english)) ∧
  (sdefs = [] →
   (∀ suite, suite ∈ suites →
      fs_exists fs (with_suffix suite (str ".scriptTerminology")) = false) →
   found = None).
Proof.
  intros Hinfo found sdefs suites. subst found.
  rewrite find_script_resources_search by done. simpl.
  unfold search_resources. fold (resource_root app_path). fold sdefs suites.
  split.
  - intros -> english plain Hen Henp Hpl Hout.
    destruct (py_sorted sdef_leb sdefs) as [|best rest] eqn:Hsorted.
    { apply py_sorted_nil in Hsorted. rewrite Hsorted in Hen. by apply elem_of_nil in Hen. }
    apply py_sorted_head in Hsorted as [Hbest Hleast];
      [|apply sdef_leb_total|apply sdef_leb_trans].
    assert (Hkey : ∀ p, p ∈ sdefs → (sdef_key p).1 = 0 → (length best ≤ length p)%nat).
    { intros p Hp Hp0. apply Hleast in Hp. unfold sdef_leb in Hp.
      apply key_leb_spec in Hp. rewrite Hp0 in Hp. unfold sdef_key in Hp at 2 4. simpl in Hp.
      lia. }
    pose proof (Hkey _ Hen (sdef_key_english _ Henp)) as Hle1.
    pose proof (Hkey _ Hpl (sdef_key_outside _ Hout)) as Hle2.
    exists best. split_and!; [done..| |].
    + intros Hshallow. destruct (decide (best = plain)) as [|Hne]; [done|].
      apply Hshallow in Hne; [lia|done].
    + intros Hshallow. destruct (decide (best = english)) as [|Hne]; [done|].
      apply Hshallow in Hne; [lia|done].
  - intros -> Hsuites. simpl.
    destruct (fs_exists fs (resource_root app_path)); [|done].
    destruct (py_sorted path_leb suites) as [|suite rest] eqn:Hsorted; [done|].
    rewrite Hsuites; [done|].
    rewrite <-(py_sorted_perm path_leb suites), Hsorted. left.
Qed.

(** C1 at two sample bundles: an English [.sdef] file beside a deeper
    non-localized one, and a lone [.scriptSuite] file. *)
Lemma find_script_resources_fallback_witness :
  (find_script_resources
     (demo_fs [[str "en.lproj"]; [str "en.lproj"; str "Demo.sdef"];
               [str "Support"]; [str "Support"; str "Deep"];
               [str "Support"; str "Deep"; str "Demo.sdef"]])
     demo_app no_info [str "/"; str "tmp"]).1
  = Some [demo_root </> [str "en.lproj"; str "Demo.sdef"]] ∧
  (find_script_resources (demo_fs [[str "Demo.scriptSuite"]]) demo_app no_info
     [str "/"; str "tmp"]).1 = None.
Proof.
  split.
  - set (fs := demo_fs _).
    set (english := demo_root </> [str "en.lproj"; str "Demo.sdef"]).
    set (plain := demo_root </> [str "Support"; str "Deep"; str "Demo.sdef"]).
    assert (Hsdefs : fs_rglob fs (resource_root demo_app) (str "*.sdef") = [english; plain])
      by (vm_compute; reflexivity).
    destruct (proj1 (find_script_resources_fallback fs demo_app no_info [str "/"; str "tmp"]
                       eq_refl) ltac:(vm_compute; reflexivity) english plain)
      as (best & Hfound & _ & _ & _ & _ & Henglish).
    + rewrite Hsdefs. left.
    + vm_compute. reflexivity.
    + rewrite Hsdefs. right. left.
    + apply (bool_decide_unpack _). vm_compute. reflexivity.
    + rewrite Hfound, Henglish; [reflexivity|].
      intros p Hp Hne. rewrite Hsdefs in Hp.
      apply elem_of_cons in Hp as [->|Hp]; [done|].
      apply list_elem_of_singleton in Hp as ->. vm_compute. lia.
  - apply (proj2 (find_script_resources_fallback (demo_fs [[str "Demo.scriptSuite"]])
                    demo_app no_info [str "/"; str "tmp"] eq_refl)).
    + vm_compute. reflexivity.
    + intros suite Hsuite.
      assert (Hsuites : fs_rglob (demo_fs [[str "Demo.scriptSuite"]]) (resource_root demo_app)
                          (str "*.scriptSuite") = [demo_root </> [str "Demo.scriptSuite"]])
        by (vm_compute; reflexivity).
      rewrite Hsuites in Hsuite. apply list_elem_of_singleton in Hsuite as ->.
      vm_compute. reflexivity.
Defined.

(** The first half of C1 as the specification words it fails: with an
    English [.sdef] file one level down and a non-localized one at the
    top of Resources, the non-localized file is selected. *)
Example find_sdef_plain_beats_english :
  (find_script_resources
     (demo_fs [[str "en.lproj"]; [str "en.lproj"; str "Demo.sdef"]; [str "Demo.sdef"]])
     demo_app no_info [str "/"; str "tmp"]).1
  = Some [demo_root </> [str "Demo.sdef"]].
Proof. vm_compute. reflexivity. Qed.

(** ** [sanitize_filename] on its own results *)

(** [split] undoes [' '.join] on words. *)
Lemma py_split_join (ws : list pystr) :
  Forall (λ w, w ≠ [] ∧ nonspace w) ws → py_split (py_join (str " ") ws) = ws.
Proof.
  unfold py_split. induction 1 as [|w ws [Hne Hw] Hws IH]; [done|].
  cbn [py_join]. destruct ws as [|w' ws].
  - pose proof (py_split_go_nonspace [] w [] Hw) as Hgo.
    rewrite app_nil_r in Hgo. rewrite Hgo. cbn. by destruct w.
  - rewrite py_split_go_nonspace by done. change (str " " ++ ?t) with (32 :: t).
    cbn [py_split_go app]. change (py_isspace 32) with true. cbv iota.
    rewrite IH. by destruct w.
Qed.

Lemma filter_all {A} (P : A → Prop) `{!∀ x, Decision (P x)} (l : list A) :
  Forall P l → filter P l = l.
Proof. induction 1 as [|x l Hx Hl IH]; [done|]. by rewrite filter_cons_True, IH. Qed.

Lemma py_replace_absent (old new : N) (s : pystr) :
  Forall (λ ch, ch ≠ old) s → py_replace old new s = s.
Proof.
  unfold py_replace. induction 1 as [|c s Hc Hs IH]; [done|].
  rewrite fmap_cons, IH. by destruct (N.eqb_spec c old).
Qed.

Lemma sanitize_filename_words (nfkd : pystr → pystr) (name : pystr) :
  ∃ ws, Forall (λ w, w ≠ [] ∧ nonspace w) ws ∧ ws ≠ [] ∧
        sanitize_filename nfkd name = py_join (str " ") ws ∧
        Forall clean_char (sanitize_filename nfkd name).
Proof.
  rewrite sanitize_filename_unfold.
  destruct (split_words_clean nfkd name) as [Hwords _].
  pose proof (cleaned_of_clean nfkd name) as Hclean.
  unfold cleaned_of in *.
  destruct (py_split _) as [|w ws] eqn:Hsplit.
  - exists [str "Untitled"]. split_and!; [|done|done|].
    + constructor; [|done]. split; [done|].
      apply (bool_decide_unpack _). vm_compute. reflexivity.
    + apply (bool_decide_unpack _). vm_compute. reflexivity.
  - exists (w :: ws). split_and!; [done|done| |].
    + destruct (py_join _ _) eqn:Hjoin; [|done].
      exfalso. inversion Hwords as [|?? [Hne _] _]; subst.
      cbn in Hjoin. destruct ws; [done|]. by destruct w.
    + destruct (py_join _ _) eqn:Hjoin; [|done].
      apply (bool_decide_unpack _). vm_compute. reflexivity.
Qed.

(** X16: [sanitize_filename] is idempotent whenever the normalization leaves
    printable ASCII strings alone, as NFKD does: a sanitized name is
    sanitized to itself. *)
Theorem sanitize_filename_idempotent (nfkd : pystr → pystr) (name : pystr) :
  (∀ s, Forall printable s → nfkd s = s) →
  sanitize_filename nfkd (sanitize_filename nfkd name) = sanitize_filename nfkd name.
Proof.
  intros Hascii.
  destruct (sanitize_filename_words nfkd name) as (ws & Hwords & Hne & Heq & Hclean).
  set (r := sanitize_filename nfkd name) in *.
  assert (Hprintable : Forall printable r).
  { eapply Forall_impl; [exact Hclean|]. by intros ch [? _]. }
  rewrite sanitize_filename_unfold. unfold cleaned_of.
  rewrite (Hascii r Hprintable), (filter_all printable r Hprintable).
  rewrite (py_replace_absent 47), (py_replace_absent 58).
  2, 3: eapply Forall_impl; [exact Hclean|]; by intros ch (_ & ? & ?).
  rewrite Heq, py_split_join by done.
  destruct (py_join (str " ") ws) eqn:Hjoin; [|done].
  exfalso. destruct Hwords as [|w ws' [Hw _] _]; [done|].
  cbn in Hjoin. destruct ws'; [done|]. by destruct w.
Qed.

Lemma sanitize_filename_idempotent_witness :
  sanitize_filename (λ s, s) (sanitize_filename (λ s, s) (str " a/b:  c "))
  = sanitize_filename (λ s, s) (str " a/b:  c ").
Proof.
  apply (sanitize_filename_idempotent (λ s, s) (str " a/b:  c ")).
  intros s _. reflexivity.
Defined.

(** ** Names of the files written *)

Lemma py_rfind_app (ch : N) (s t : pystr) :
  ch ∉ t → py_rfind ch (s ++ ch :: t) = Some (length s).
Proof.
  intros Ht.
  assert (Hnone : py_rfind ch t = None).
  { induction t as [|c t IH]; [done|]. cbn.
    rewrite IH by (intros ?; apply Ht; by right).
    destruct (N.eqb_spec c ch) as [->|]; [|done]. exfalso. apply Ht. left. }
  induction s as [|c s IH]; cbn.
  - by rewrite Hnone, N.eqb_refl.
  - by rewrite IH.
Qed.

(** The stem of [f'{name}.pdf'] is [name], unless [name] is empty. *)
Lemma name_stem_pdf (name : pystr) : name ≠ [] → name_stem (name ++ str ".pdf") = name.
Proof.
  intros Hne. unfold name_stem, suffix_index.
  change (str ".pdf") with [46; 112; 100; 102].
  rewrite py_rfind_app by (apply (bool_decide_unpack _); vm_compute; reflexivity).
  rewrite bool_decide_true.
  - by rewrite take_app_length.
  - rewrite length_app. destruct name; [done|]. cbn. lia.
Qed.

Lemma py_startswith_app (prefix s : pystr) : py_startswith prefix (prefix ++ s) = true.
Proof. induction prefix as [|c prefix IH]; [done|]. cbn. by rewrite N.eqb_refl, IH. Qed.

Lemma py_endswith_app (suffix s : pystr) : py_endswith suffix (s ++ suffix) = true.
Proof. unfold py_endswith. rewrite reverse_app. apply py_startswith_app. Qed.

Lemma numbered_nonempty base k : numbered base k ≠ [].
Proof.
  unfold numbered. intros H. apply (f_equal length) in H.
  rewrite !length_app in H. simpl in H. lia.
Qed.

Lemma unique_name_loop_least (base : pystr) (used : gset pystr) fuel candidate counter name :
  unique_name_loop fuel base candidate counter used = Some name →
  (name ∉ used) ∧
  ((name = candidate) ∨
   (candidate ∈ used ∧ ∃ k, counter ≤ k ∧ name = numbered base k ∧
      ∀ j, counter ≤ j < k → numbered base j ∈ used)).
Proof.
  revert candidate counter.
  induction fuel as [|fuel IH]; intros candidate counter; cbn; [done|].
  case_decide as Hin; [|intros [= <-]; by auto].
  intros H. apply IH in H as [Hfree [->|(Hused & k & Hk & -> & Hall)]]; (split; [done|]); right;
    (split; [done|]).
  - exists counter. split_and!; [lia|done|intros; lia].
  - exists k. split_and!; [lia|done|]. intros j Hj.
    destruct (decide (j = counter)) as [->|]; [done|]. apply Hall. lia.
Qed.

(** X5: [unique_name] returns the base name when it is free, and otherwise
    the base name with the smallest counter from 2 on that is free; the
    name goes into the set, and the loop always ends. *)
Theorem unique_name_smallest_counter (base : pystr) (used : gset pystr) :
  ∃ name,
    unique_name base used = Some (name, {[name]} ∪ used) ∧
    (name ∉ used) ∧
    ((name = base) ∨
     (base ∈ used ∧ ∃ k, 2 ≤ k ∧ name = numbered base k ∧
        ∀ j, 2 ≤ j < k → numbered base j ∈ used)).
Proof.
  destruct (unique_name_spec base used) as (name & Heq & _).
  exists name. split; [done|].
  unfold unique_name in Heq.
  destruct (unique_name_loop _ _ _ _ _) as [name'|] eqn:Hloop; [|done].
  cbn in Heq. injection Heq as -> _.
  by apply unique_name_loop_least in Hloop.
Qed.

Lemma unique_name_nonempty base used name used' :
  base ≠ [] → unique_name base used = Some (name, used') → name ≠ [].
Proof.
  intros Hbase Heq. unfold unique_name in Heq.
  destruct (unique_name_loop _ _ _ _ _) as [name'|] eqn:Hloop; [|done].
  cbn in Heq. injection Heq as -> _.
  apply unique_name_loop_least in Hloop as [_ [->|(_ & k & _ & -> & _)]];
    [done|apply numbered_nonempty].
Qed.

(** ** The generator *)
Module GeneratorFacts.
Import Generator.

Ltac msimpl :=
  unfold mbind, M_bind, mret, M_ret, emit, emits, get, raise, diverge, set_binary, add_file,
    try_except, joinpath; cbn.

Lemma relative_to_app p q base :
  is_Some (relative_to p base) → is_Some (relative_to (p ++ q) base).
Proof.
  revert p. induction base as [|b base IH]; intros p; simpl.
  - intros _. by eexists.
  - destruct p as [|x p]; simpl; [by intros [? [=]]|].
    case_bool_decide; [apply IH|done].
Qed.

Lemma extend_extend w es1 es2 : extend (extend w es1) es2 = extend w (es1 ++ es2).
Proof. unfold extend. simpl. by rewrite app_assoc. Qed.

Lemma extend_nil w : extend w [] = w.
Proof. destruct w. unfold extend. simpl. by rewrite app_nil_r. Qed.

Lemma stderr_of_app l1 l2 : stderr_of (l1 ++ l2) = stderr_of l1 ++ stderr_of l2.
Proof. unfold stderr_of. apply bind_app. Qed.

Lemma stderr_of_log m : stderr_of [log m] = [].
Proof. done. Qed.

Lemma stderr_of_run argv : stderr_of [Run argv] = [].
Proof. done. Qed.

Lemma stderr_of_warn m : stderr_of [warn m] = [str "warning: " ++ m].
Proof. done. Qed.

Section generator_facts.
Variable env : Env.

Lemma run_sdp_eq inputs basename work_dir w :
  run_sdp env inputs basename work_dir w =
  match which env (str "sdp") with
  | None =>
      (Raise (GenerationError
         (str "sdp not found; install Xcode to access scripting bridge tools.")), w)
  | Some sdp =>
      let command := sdp_command sdp basename inputs in
      let result := sdp_run env command work_dir in
      let w1 := extend w [Run command] in
      if bool_decide (returncode (sdp_proc result) ≠ 0%Z) then
        (Raise (GenerationError
          (str "sdp failed for " ++ basename ++ str ": " ++
           py_or (py_strip (proc_stderr (sdp_proc result)))
                 (py_or (py_strip (proc_stdout (sdp_proc result))) (str "unknown error")))),
         w1)
      else if sdp_header result then (Return (work_dir ++ [basename ++ str ".h"]), w1)
      else (Raise (GenerationError
              (str "sdp did not produce expected header " ++
               path_str (work_dir ++ [basename ++ str ".h"]))), w1)
  end.
Proof.
  unfold run_sdp. destruct (which env (str "sdp")); [|done]. msimpl.
  case_bool_decide; [done|]. by destruct (sdp_header _).
Qed.

Lemma convert_to_pdf_eq converter header_path output_path w :
  convert_to_pdf env converter header_path output_path w =
  let command := convert_command converter header_path output_path in
  let result := convert_run env command in
  let w1 := extend w [Run command] in
  let w2 := if convert_wrote result
            then {| out_files := {[List.last output_path []]} ∪ out_files w1;
                    binary_mtime := binary_mtime w1; trace := trace w1 |}
            else w1 in
  if bool_decide (convert_returncode result ≠ 0%Z)
  then (Raise (CalledProcessError (convert_exc result)), w2)
  else (Return (), w2).
Proof.
  unfold convert_to_pdf. msimpl. destruct (convert_wrote _); simpl; by case_bool_decide.
Qed.

Lemma process_app_returns output_dir converter app_path info used_names w :
  under_root env output_dir →
  ∃ used w', process_app env output_dir converter app_path info used_names w = (Return used, w').
Proof.
  intros Hroot.
  destruct (unique_name_spec (sanitize_filename (nfkd env) (app_name_of app_path info))
              used_names) as (pdf_name & Hunique & _).
  unfold process_app. rewrite Hunique. msimpl.
  case_bool_decide.
  { destruct (relative_to_app output_dir
      [sanitize_filename (nfkd env) (app_name_of app_path info) ++ str ".pdf"] _ Hroot)
      as [rel ->]. eauto. }
  destruct (find_script_resources _ _ _ _) as [[[|input inputs]|] effects]; simpl; eauto.
  rewrite run_sdp_eq.
  destruct (which env (str "sdp")) as [sdp|]; simpl; eauto.
  case_bool_decide; simpl; eauto.
  destruct (sdp_header _); simpl; eauto.
  rewrite convert_to_pdf_eq. simpl.
  case_bool_decide; simpl; eauto.
  destruct (relative_to_app output_dir [pdf_name ++ str ".pdf"] _ Hroot) as [rel ->].
  simpl. eauto.
Qed.

Lemma for_applications_returns output_dir converter apps seen used_names w :
  under_root env output_dir →
  ∃ w', for_applications env output_dir converter apps seen used_names w = (Return (), w').
Proof.
  intros Hroot. revert seen used_names w.
  induction apps as [|app apps IH]; intros seen used_names w; simpl; [by eexists|].
  destruct (is_dir env app); simpl; [|apply IH].
  unfold load_info_plist.
  destruct (read_plist env app) as [|exc|info]; msimpl; try apply IH.
  case_bool_decide; [apply IH|].
  destruct (process_app_returns output_dir converter app info used_names w Hroot)
    as (used & w' & ->).
  apply IH.
Qed.

Lemma newline_free_prefix (prefix out : pystr) :
  10 ∉ prefix → 10 ∈ prefix ++ out → 10 ∈ out.
Proof. intros Hprefix Hin. apply elem_of_app in Hin as [?|?]; done. Qed.

(** The message of a failed compilation holds a newline only when it is
    the generic one, and then the newline is in the compiler's output. *)
Lemma compile_error_lines (error_output : pystr) :
  10 ∈ compile_error error_output →
  compile_error error_output = str "Failed to compile text converter: " ++ error_output ∧
  10 ∈ error_output.
Proof.
  unfold compile_error.
  repeat match goal with
  | |- context [if ?b then _ else _] => destruct b
  end.
  1, 2, 3: intros Hin; exfalso; revert Hin; apply (bool_decide_unpack _);
    vm_compute; reflexivity.
  intros Hin. split; [done|]. revert Hin. apply newline_free_prefix.
  apply (bool_decide_unpack _). vm_compute. reflexivity.
Qed.

Lemma ensure_text2pdf_fails w :
  setup_fails env w →
  ∃ msg w1, ensure_text2pdf env w = (Raise (GenerationError msg), w1) ∧
            stderr_of (trace w1) = stderr_of (trace w) ∧ out_files w1 = out_files w ∧
    (source_mtime env = None →
     msg = str "Missing converter source at " ++ path_str (TEXT2PDF_SOURCE env)) ∧
    (source_mtime env ≠ None → which env (str "swiftc") = None →
     msg = str "swiftc not found; install Xcode command-line tools or Swift toolchain.") ∧
    (∀ swiftc, source_mtime env ≠ None → which env (str "swiftc") = Some swiftc →
     msg = compile_error
             (py_strip
                (py_or (proc_stderr (compile_proc (swiftc_run env (compile_command env swiftc))))
                       (proc_stdout (compile_proc (swiftc_run env (compile_command env swiftc))))))).
Proof.
  unfold setup_fails, ensure_text2pdf.
  destruct (source_mtime env) as [source_time|].
  2: { intros _. msimpl. do 2 eexists. split_and!; try done. }
  intros [Hstale Hswiftc]. msimpl. rewrite Hstale.
  destruct (which env (str "swiftc")) as [swiftc|].
  2: { msimpl. do 2 eexists. split_and!; try done. }
  msimpl. rewrite bool_decide_true by done.
  destruct (compile_binary _); cbn; do 2 eexists; (split; [done|]); cbn;
    rewrite !stderr_of_app, stderr_of_log, stderr_of_run, !app_nil_r;
    (split_and!; try done); by intros swiftc' _ [= <-].
Qed.

Lemma ensure_text2pdf_succeeds w :
  ¬ setup_fails env w →
  ∃ converter w1, ensure_text2pdf env w = (Return converter, w1).
Proof.
  unfold setup_fails, ensure_text2pdf.
  destruct (source_mtime env) as [source_time|]; [|by intros []].
  msimpl. destruct (needs_rebuild _ _); [|eauto].
  destruct (which env (str "swiftc")) as [swiftc|]; [|by intros []].
  intros Hrc. msimpl. rewrite bool_decide_false by (intros ?; apply Hrc; done).
  destruct (compile_binary _); cbn; eauto.
Qed.

(** One step of the loop over a bundle that is read and whose key is
    new. *)
Lemma for_applications_step output_dir converter app apps info seen used_names w used w' :
  is_dir env app = true →
  read_plist env app = PlistLoaded info →
  app_key env app info ∉ seen →
  process_app env output_dir converter app info used_names w = (Return used, w') →
  for_applications env output_dir converter (app :: apps) seen used_names w
  = for_applications env output_dir converter apps ({[app_key env app info]} ∪ seen) used w'.
Proof.
  intros Hdir Hplist Hkey Heq. cbn [for_applications]. rewrite Hdir. cbn [negb].
  unfold load_info_plist. rewrite Hplist.
  unfold mbind, M_bind, mret, M_ret. cbn.
  rewrite bool_decide_false by done. by rewrite Heq.
Qed.

Section failing_item.
Variables (output_dir converter app : Path) (info : Info).
Variables (used_names : gset pystr) (w : World).

Let app_name := app_name_of app info.
Let safe_name := sanitize_filename (nfkd env) app_name.
Let tmp_dir := mkdtemp env app.
Let found := find_script_resources (fs env) app info tmp_dir.
Let basename := sdp_basename safe_name.

Hypothesis Hnew : safe_name ++ str ".pdf" ∉ out_files w.

Ltac start :=
  destruct (unique_name_spec safe_name used_names) as (name' & Hunique' & _);
  unfold process_app; fold app_name safe_name tmp_dir found basename;
  rewrite Hunique'; msimpl; rewrite bool_decide_false by done.

Ltac finish := cbn; unfold extend; cbn; rewrite <-?app_assoc; reflexivity.

Lemma process_app_no_resource :
  found.1 = None ∨ found.1 = Some [] →
  process_app env output_dir converter app info used_names w
  = (Return used_names,
     extend w (found.2 ++
       [warn (str "Skipping " ++ app_name ++ str ": no scripting definition found")])).
Proof.
  intros Hfound. start.
  destruct found as [inputs effects]. cbn [fst snd] in *.
  destruct Hfound as [->| ->]; finish.
Qed.

Lemma process_app_sdp_missing input inputs :
  found.1 = Some (input :: inputs) →
  which env (str "sdp") = None →
  process_app env output_dir converter app info used_names w
  = (Return used_names,
     extend w (found.2 ++
       [warn (app_name ++ str ": "
              ++ str "sdp not found; install Xcode to access scripting bridge tools.")])).
Proof.
  intros Hfound Hsdp. start.
  destruct found as [found_inputs effects]. cbn [fst snd] in *. subst found_inputs. cbn.
  rewrite run_sdp_eq, Hsdp. finish.
Qed.

Lemma process_app_sdp_fails input inputs sdp :
  found.1 = Some (input :: inputs) →
  which env (str "sdp") = Some sdp →
  returncode (sdp_proc (sdp_run env (sdp_command sdp basename (input :: inputs)) tmp_dir))
    ≠ 0%Z →
  process_app env output_dir converter app info used_names w
  = (Return used_names,
     extend w (found.2 ++
       [Run (sdp_command sdp basename (input :: inputs));
        warn (app_name ++ str ": " ++ str "sdp failed for " ++ basename ++ str ": " ++
              py_or (py_strip (proc_stderr (sdp_proc
                       (sdp_run env (sdp_command sdp basename (input :: inputs)) tmp_dir))))
                (py_or (py_strip (proc_stdout (sdp_proc
                          (sdp_run env (sdp_command sdp basename (input :: inputs)) tmp_dir))))
                   (str "unknown error")))])).
Proof.
  intros Hfound Hsdp Hrc. start.
  destruct found as [found_inputs effects]. cbn [fst snd] in *. subst found_inputs. cbn.
  rewrite run_sdp_eq, Hsdp. cbv zeta. rewrite bool_decide_true by done. finish.
Qed.

Lemma process_app_header_missing input inputs sdp :
  found.1 = Some (input :: inputs) →
  which env (str "sdp") = Some sdp →
  returncode (sdp_proc (sdp_run env (sdp_command sdp basename (input :: inputs)) tmp_dir))
    = 0%Z →
  sdp_header (sdp_run env (sdp_command sdp basename (input :: inputs)) tmp_dir) = false →
  process_app env output_dir converter app info used_names w
  = (Return used_names,
     extend w (found.2 ++
       [Run (sdp_command sdp basename (input :: inputs));
        warn (app_name ++ str ": " ++ str "sdp did not produce expected header "
              ++ path_str (tmp_dir </> [basename ++ str ".h"]))])).
Proof.
  intros Hfound Hsdp Hrc Hheader. start.
  destruct found as [found_inputs effects]. cbn [fst snd] in *. subst found_inputs. cbn.
  rewrite run_sdp_eq, Hsdp. cbv zeta. rewrite Hrc, Hheader.
  rewrite bool_decide_false by (by intros Hne; apply Hne). finish.
Qed.

Lemma process_app_convert_fails input inputs sdp pdf_name used :
  found.1 = Some (input :: inputs) →
  which env (str "sdp") = Some sdp →
  returncode (sdp_proc (sdp_run env (sdp_command sdp basename (input :: inputs)) tmp_dir))
    = 0%Z →
  sdp_header (sdp_run env (sdp_command sdp basename (input :: inputs)) tmp_dir) = true →
  unique_name safe_name used_names = Some (pdf_name, used) →
  convert_returncode
    (convert_run env
       (convert_command converter (tmp_dir </> [basename ++ str ".h"])
          (output_dir </> [pdf_name ++ str ".pdf"]))) ≠ 0%Z →
  process_app env output_dir converter app info used_names w
  = (Return used,
     {| out_files :=
          if convert_wrote
               (convert_run env
                  (convert_command converter (tmp_dir </> [basename ++ str ".h"])
                     (output_dir </> [pdf_name ++ str ".pdf"])))
          then {[pdf_name ++ str ".pdf"]} ∪ out_files w else out_files w;
        binary_mtime := binary_mtime w;
        trace := trace w ++ found.2 ++
          [Run (sdp_command sdp basename (input :: inputs));
           Run (convert_command converter (tmp_dir </> [basename ++ str ".h"])
                  (output_dir </> [pdf_name ++ str ".pdf"]));
           warn (str "Failed to convert header for " ++ app_name ++ str ": " ++
                 convert_exc
                   (convert_run env
                      (convert_command converter (tmp_dir </> [basename ++ str ".h"])
                         (output_dir </> [pdf_name ++ str ".pdf"]))))] |}).
Proof.
  intros Hfound Hsdp Hrc Hheader Hunique Hconv.
  unfold process_app. fold app_name safe_name tmp_dir found basename.
  rewrite Hunique. msimpl. rewrite bool_decide_false by done.
  destruct found as [found_inputs effects]. cbn [fst snd] in *. subst found_inputs. cbn.
  rewrite run_sdp_eq, Hsdp. cbv zeta. rewrite Hrc, Hheader.
  rewrite bool_decide_false by (by intros Hne; apply Hne). cbv iota beta.
  rewrite convert_to_pdf_eq. cbv zeta. unfold joinpath in *.
  rewrite bool_decide_true by done. rewrite List.last_last.
  destruct (convert_wrote _); cbn; unfold extend; cbn; rewrite <-?app_assoc; reflexivity.
Qed.
End failing_item.
End generator_facts.

(** C2, amended: [main] returns exit code 1, with exactly one more
    message on the error stream and no PDF written, when the setup
    fails: the converter source is missing, or the converter has to be
    rebuilt and [swiftc] is missing or exits non-zero.  The message is
    the one of the failure; it is a single line unless the path of the
    source holds a newline or the compilation failed in no known way,
    in which case the compiler's output is printed as it is.  In every
    other case, for an output directory below the work space, [main]
    returns exit code 0, whatever happens to the single bundles: a
    missing [sdp] and a header [sdp] does not leave are failures of one
    bundle. *)
Theorem generator_exit_code (env : Env) (args : Args) (w : World) :
  (setup_fails env w →
   ∃ msg w', main env args w = (Return 1%Z, w') ∧
     stderr_of (trace w') = stderr_of (trace w) ++ [str "warning: " ++ msg] ∧
     out_files w' = out_files w ∧
     (source_mtime env = None →
      msg = str "Missing converter source at " ++ path_str (TEXT2PDF_SOURCE env)) ∧
     (source_mtime env ≠ None → which env (str "swiftc") = None →
      msg = str "swiftc not found; install Xcode command-line tools or Swift toolchain.") ∧
     (∀ swiftc, source_mtime env ≠ None → which env (str "swiftc") = Some swiftc →
      msg = compile_error
              (py_strip
                 (py_or
                    (proc_stderr (compile_proc (swiftc_run env (compile_command env swiftc))))
                    (proc_stdout (compile_proc (swiftc_run env (compile_command env swiftc))))))) ∧
     (10 ∈ msg →
      (source_mtime env = None ∧ 10 ∈ path_str (TEXT2PDF_SOURCE env)) ∨
      (∃ error_output,
         msg = str "Failed to compile text converter: " ++ error_output ∧
         10 ∈ error_output))) ∧
  (under_root env (output args) → ¬ setup_fails env w →
   ∃ w', main env args w = (Return 0%Z, w')).
Proof.
  split.
  - intros Hfail.
    apply ensure_text2pdf_fails in Hfail
      as (msg & w1 & Heq & Herr & Hout & Hmissing & Hswiftc & Hcompile).
    exists msg. unfold main, generate_pdfs. msimpl. rewrite Heq. cbn.
    eexists. split; [done|]. cbn. split_and!; try done.
    { by rewrite stderr_of_app, Herr. }
    intros Hline.
    destruct (source_mtime env) as [source_time|] eqn:Hsource.
    + destruct (which env (str "swiftc")) as [swiftc|] eqn:Hwhich.
      * right. rewrite (Hcompile swiftc) in * by done.
        apply compile_error_lines in Hline as [-> Hline]. by eexists.
      * exfalso. rewrite Hswiftc in Hline by done. revert Hline.
        apply (bool_decide_unpack _). vm_compute. reflexivity.
    + left. split; [done|]. rewrite Hmissing in Hline by done. revert Hline.
      apply newline_free_prefix. apply (bool_decide_unpack _). vm_compute. reflexivity.
  - intros Hroot Hok. apply ensure_text2pdf_succeeds in Hok as (converter & w1 & Heq).
    unfold main, generate_pdfs. msimpl. rewrite Heq.
    set (scope := if user_only args then _ else _).
    destruct (for_applications_returns env (output args) converter
                (app_candidates env (search_paths env scope)) ∅
                (pdf_stems (out_files w1)) w1 Hroot) as [w' ->].
    eauto.
Qed.

(** C2 at two sample runs: with the converter source missing the run
    ends with exit code 1, one diagnostic message and no PDF; with the
    source present and the binary up to date it ends with exit code 0. *)
Lemma generator_exit_code_witness :
  (∃ w',
     main (sample_env None (Some (str "/usr/bin/sdp")) true 0) sample_args sample_world
       = (Return 1%Z, w') ∧
     stderr_of (trace w') =
       stderr_of (trace sample_world)
       ++ [str "warning: " ++ str "Missing converter source at " ++
           path_str (TEXT2PDF_SOURCE (sample_env None (Some (str "/usr/bin/sdp")) true 0))] ∧
     out_files w' = out_files sample_world) ∧
  (∃ w',
     main (sample_env (Some 1%Z) (Some (str "/usr/bin/sdp")) true 0) sample_args sample_world
       = (Return 0%Z, w')).
Proof.
  split.
  - destruct (proj1 (generator_exit_code (sample_env None (Some (str "/usr/bin/sdp")) true 0)
                       sample_args sample_world) I)
      as (msg & w' & Hmain & Herr & Hout & Hmsg & _).
    exists w'. rewrite <-(Hmsg eq_refl). done.
  - apply (proj2 (generator_exit_code _ sample_args sample_world)).
    + exists [str "AppScripts"]. vm_compute. reflexivity.
    + intros [Hstale _]. vm_compute in Hstale. discriminate.
Defined.

(** C2 as the specification words it fails.  A missing [sdp] and a
    header [sdp] does not leave are caught in the loop of
    [generate_pdfs]: each bundle gets its own warning, and the exit code
    is 0.  A compilation that fails in no known way ends the run with
    exit code 1, and its one diagnostic message holds the two lines the
    compiler printed. *)
Example missing_sdp_is_not_fatal :
  let run sdp header :=
    main (sample_env (Some 1%Z) sdp header 0) sample_args sample_world in
  (run None true).1 = Return 0%Z ∧
  stderr_of (trace (run None true).2) =
    [str "warning: Notes: sdp not found; install Xcode to access scripting bridge tools.";
     str "warning: Notes: sdp not found; install Xcode to access scripting bridge tools."] ∧
  (run (Some (str "/usr/bin/sdp")) false).1 = Return 0%Z ∧
  stderr_of (trace (run (Some (str "/usr/bin/sdp")) false).2) =
    [str "warning: Notes: sdp did not produce expected header /tmp/work/Notes.h";
     str "warning: Notes: sdp did not produce expected header /tmp/work/Notes.h"] ∧
  (main broken_swiftc_env sample_args unbuilt_world).1 = Return 1%Z ∧
  stderr_of (trace (main broken_swiftc_env sample_args unbuilt_world).2) =
    [str "warning: Failed to compile text converter: main.swift:1: error: one" ++ [10]
     ++ str "main.swift:2: error: two"].
Proof. vm_compute. done. Qed.

(** C3 fails on the code: two bundles with different identifiers whose
    names both sanitize to [Notes] are discovered in one run, every tool
    succeeds; the first is written as [Notes.pdf], and the second is
    skipped as already existing: the output directory holds [Notes.pdf]
    alone, the converter runs once, and no [Notes (2).pdf] is written. *)
Theorem second_same_name_app_is_skipped :
  let r := main (sample_env (Some 1%Z) (Some (str "/usr/bin/sdp")) true 0)
             sample_args sample_world in
  r.1 = Return 0%Z ∧
  out_files r.2 = {[str "Notes.pdf"]} ∧
  (str "Notes (2).pdf" ∉ out_files r.2) ∧
  stdout_of (trace r.2) =
    [str "Wrote AppScripts/Notes.pdf";
     str "Skipping Notes: AppScripts/Notes.pdf already exists"] ∧
  runs_of (trace r.2) =
    [[str "/usr/bin/sdp"; str "-fh"; str "--basename"; str "Notes";
      str "/Applications/Notes.app/Contents/Resources/Notes.sdef"];
     [str "/repo/tools/.build/text2pdf"; str "/tmp/work/Notes.h";
      str "/repo/AppScripts/Notes.pdf"]].
Proof.
  split_and!; try (vm_compute; reflexivity).
  apply (bool_decide_unpack _). vm_compute. reflexivity.
Qed.

End GeneratorFacts.

(** ** The steps of the generator *)
Module GeneratorSteps.
Import Generator GeneratorFacts.

(** X1: [ensure_text2pdf] with a binary that is not older than the source
    returns the path of the binary and does nothing: no compiler is
    looked up or run, nothing is printed. *)
Theorem ensure_text2pdf_up_to_date (env : Env) (w : World) (source_time binary_time : Z) :
  source_mtime env = Some source_time →
  binary_mtime w = Some binary_time →
  (source_time ≤ binary_time)%Z →
  ensure_text2pdf env w = (Return (TEXT2PDF_BUILD env </> [str "text2pdf"]), w).
Proof.
  intros Hsource Hbinary Hle. unfold ensure_text2pdf. rewrite Hsource. msimpl.
  rewrite Hbinary. cbn. by rewrite (proj2 (Z.ltb_ge _ _)) by lia.
Qed.

Lemma ensure_text2pdf_up_to_date_witness :
  ensure_text2pdf (sample_env (Some 1%Z) None true 0) sample_world
  = (Return [str "/"; str "repo"; str "tools"; str ".build"; str "text2pdf"], sample_world).
Proof.
  apply (ensure_text2pdf_up_to_date (sample_env (Some 1%Z) None true 0) sample_world 1 5);
    [reflexivity|reflexivity|lia].
Defined.

(** X2: [ensure_text2pdf] with a missing or older binary, [swiftc] found and
    exiting with 0: the compiler is run once, with the source, [-o], the
    binary and the module cache as arguments; nothing goes to the error
    stream, no PDF is touched, and the path of the binary is returned. *)
Theorem ensure_text2pdf_rebuilds (env : Env) (w : World) (source_time : Z) (swiftc : pystr) :
  source_mtime env = Some source_time →
  needs_rebuild source_time (binary_mtime w) = true →
  which env (str "swiftc") = Some swiftc →
  returncode (compile_proc (swiftc_run env (compile_command env swiftc))) = 0%Z →
  ∃ w',
    ensure_text2pdf env w = (Return (TEXT2PDF_BUILD env </> [str "text2pdf"]), w') ∧
    runs_of (trace w') = runs_of (trace w) ++
      [[swiftc; path_str (TEXT2PDF_SOURCE env); str "-o";
        path_str (TEXT2PDF_BUILD env </> [str "text2pdf"]); str "-module-cache-path";
        path_str (TEXT2PDF_BUILD env </> [str "ModuleCache"])]] ∧
    stderr_of (trace w') = stderr_of (trace w) ∧
    out_files w' = out_files w ∧
    binary_mtime w' =
      from_option Some (binary_mtime w)
        (compile_binary (swiftc_run env (compile_command env swiftc))).
Proof.
  intros Hsource Hstale Hswiftc Hrc. unfold ensure_text2pdf. rewrite Hsource. msimpl.
  rewrite Hstale, Hswiftc. msimpl. rewrite bool_decide_false by (by intros Hne; apply Hne).
  destruct (compile_binary _); cbn; eexists; (split; [done|]); cbn;
    unfold runs_of; rewrite <-!app_assoc, !stderr_of_app, !bind_app; cbn;
    by rewrite !app_nil_r.
Qed.

Lemma ensure_text2pdf_rebuilds_witness :
  ∃ w',
    ensure_text2pdf (sample_env (Some 7%Z) None true 0) sample_world
      = (Return [str "/"; str "repo"; str "tools"; str ".build"; str "text2pdf"], w') ∧
    runs_of (trace w') =
      [[str "/usr/bin/swiftc"; str "/repo/tools/text2pdf.swift"; str "-o";
        str "/repo/tools/.build/text2pdf"; str "-module-cache-path";
        str "/repo/tools/.build/ModuleCache"]] ∧
    stderr_of (trace w') = [] ∧
    out_files w' = ∅ ∧
    binary_mtime w' = Some 10%Z.
Proof.
  apply (ensure_text2pdf_rebuilds (sample_env (Some 7%Z) None true 0) sample_world 7
           (str "/usr/bin/swiftc")); reflexivity.
Defined.

End GeneratorSteps.

Module GeneratorLoop.
Import Generator GeneratorFacts.

Section loop_facts.
Variables (env : Env) (output_dir converter : Path).

(** A bundle whose key has been seen is dropped wherever it stands. *)
Lemma for_applications_drop_seen dup info after l seen used_names w :
  read_plist env dup = PlistLoaded info →
  app_key env dup info ∈ seen →
  for_applications env output_dir converter (l ++ dup :: after) seen used_names w
  = for_applications env output_dir converter (l ++ after) seen used_names w.
Proof.
  intros Hplist. revert seen used_names w.
  induction l as [|cand l IH]; intros seen used_names w Hseen; cbn [app for_applications].
  - destruct (is_dir env dup); cbn [negb]; [|done].
    unfold load_info_plist. rewrite Hplist. msimpl. by rewrite bool_decide_true.
  - destruct (is_dir env cand); cbn [negb]; [|by apply IH].
    unfold load_info_plist.
    destruct (read_plist env cand) as [|exc|info']; msimpl; try by apply IH.
    case_bool_decide; [by apply IH|].
    destruct (process_app _ _ _ _ _ _ _) as [[used| |] w1]; try done.
    apply IH. set_solver.
Qed.
End loop_facts.

(** X3: [iter_applications] yields an identity once: when a bundle that is
    read has the key of a bundle that is a directory and is read earlier
    in the scan, the run is the run without the later bundle. *)
Theorem duplicate_bundle_is_dropped (env : Env) (output_dir converter : Path)
    (before between after : list Path) (first dup : Path) (info1 info2 : Info)
    (seen used_names : gset pystr) (w : World) :
  is_dir env first = true →
  read_plist env first = PlistLoaded info1 →
  read_plist env dup = PlistLoaded info2 →
  app_key env dup info2 = app_key env first info1 →
  for_applications env output_dir converter
    (before ++ first :: between ++ dup :: after) seen used_names w
  = for_applications env output_dir converter
      (before ++ first :: between ++ after) seen used_names w.
Proof.
  intros Hdir Hfirst Hdup Hkey. revert seen used_names w.
  induction before as [|cand l IH]; intros seen used_names w; cbn [app for_applications].
  - rewrite Hdir. cbn [negb]. unfold load_info_plist. rewrite Hfirst. msimpl.
    case_bool_decide.
    + apply (for_applications_drop_seen env output_dir converter dup info2); [done|].
      by rewrite Hkey.
    + destruct (process_app _ _ _ _ _ _ _) as [[used| |] w1]; try done.
      apply (for_applications_drop_seen env output_dir converter dup info2); [done|].
      rewrite Hkey. set_solver.
  - destruct (is_dir env cand); cbn [negb]; [|by apply IH].
    unfold load_info_plist.
    destruct (read_plist env cand) as [|exc|info']; msimpl; try by apply IH.
    case_bool_decide; [by apply IH|].
    destruct (process_app _ _ _ _ _ _ _) as [[used| |] w1]; try done.
Qed.

(** The bundle [Notes.app], found below two search roots. *)
Lemma duplicate_bundle_is_dropped_witness :
  let env := sample_env (Some 1%Z) (Some (str "/usr/bin/sdp")) true 0 in
  for_applications env (output sample_args) (TEXT2PDF_BUILD env </> [str "text2pdf"])
    [notes_app; notes_app] ∅ ∅ sample_world
  = for_applications env (output sample_args) (TEXT2PDF_BUILD env </> [str "text2pdf"])
      [notes_app] ∅ ∅ sample_world.
Proof.
  intros env.
  apply (duplicate_bundle_is_dropped env (output sample_args)
           (TEXT2PDF_BUILD env </> [str "text2pdf"]) [] [] [] notes_app notes_app
           (notes_info (str "com.example.notes")) (notes_info (str "com.example.notes")));
    reflexivity.
Defined.

(** X4: A candidate that is no directory or has no [Info.plist] is skipped
    without any effect, and one whose [Info.plist] cannot be read costs
    one warning; in both cases the loop goes on with the sets of seen
    keys and used names as they were. *)
Theorem unusable_bundle_is_skipped (env : Env) (output_dir converter app : Path)
    (apps : list Path) (seen used_names : gset pystr) (w : World) :
  (is_dir env app = false ∨ read_plist env app = PlistMissing →
   for_applications env output_dir converter (app :: apps) seen used_names w
   = for_applications env output_dir converter apps seen used_names w) ∧
  (∀ exc, is_dir env app = true → read_plist env app = PlistUnreadable exc →
   for_applications env output_dir converter (app :: apps) seen used_names w
   = for_applications env output_dir converter apps seen used_names
       (extend w [warn (str "Failed to read Info.plist for " ++ path_str app
                        ++ str ": " ++ exc)])).
Proof.
  split.
  - intros Hskip. cbn [for_applications].
    destruct (is_dir env app); cbn [negb]; [|done].
    destruct Hskip as [?|Hplist]; [done|].
    unfold load_info_plist. rewrite Hplist. by msimpl.
  - intros exc Hdir Hplist. cbn [for_applications]. rewrite Hdir. cbn [negb].
    unfold load_info_plist. rewrite Hplist. by msimpl.
Qed.

End GeneratorLoop.

Module GeneratorItems.
Import Generator GeneratorFacts.

Lemma sanitize_filename_nonempty nfkd name : sanitize_filename nfkd name ≠ [].
Proof. rewrite sanitize_filename_unfold. by destruct (cleaned_of nfkd name). Qed.

Lemma last_child (p : Path) (name : pystr) : List.last (p ++ [name]) [] = name.
Proof. apply List.last_last. Qed.

(** X6: One bundle with a scripting resource, [sdp] exiting with 0 and
    leaving its header, and the converter exiting with 0 and writing its
    output: the bundle's PDF is added to the output directory under a
    name that was not used before (the sanitized name when that is
    free), the name is registered, and the iteration runs [sdp] and the
    converter once each and logs the path written. *)
Theorem process_app_writes_pdf (env : Env) (output_dir converter app : Path) (info : Info)
    (used_names : gset pystr) (w : World) (input : Path) (inputs : list Path) (sdp : pystr) :
  let safe_name := sanitize_filename (nfkd env) (app_name_of app info) in
  let tmp_dir := mkdtemp env app in
  let header_path := tmp_dir </> [sdp_basename safe_name ++ str ".h"] in
  let sdp_argv := sdp_command sdp (sdp_basename safe_name) (input :: inputs) in
  under_root env output_dir →
  safe_name ++ str ".pdf" ∉ out_files w →
  (find_script_resources (fs env) app info tmp_dir).1 = Some (input :: inputs) →
  which env (str "sdp") = Some sdp →
  returncode (sdp_proc (sdp_run env sdp_argv tmp_dir)) = 0%Z →
  sdp_header (sdp_run env sdp_argv tmp_dir) = true →
  (∀ pdf_path,
     convert_returncode (convert_run env (convert_command converter header_path pdf_path)) = 0%Z ∧
     convert_wrote (convert_run env (convert_command converter header_path pdf_path)) = true) →
  ∃ pdf_name rel w',
    process_app env output_dir converter app info used_names w
      = (Return ({[pdf_name]} ∪ used_names), w') ∧
    (pdf_name ∉ used_names) ∧
    (safe_name ∉ used_names → pdf_name = safe_name) ∧
    out_files w' = {[pdf_name ++ str ".pdf"]} ∪ out_files w ∧
    relative_to (output_dir </> [pdf_name ++ str ".pdf"]) (WORKSPACE_ROOT env) = Some rel ∧
    trace w' = trace w ++ (find_script_resources (fs env) app info tmp_dir).2 ++
      [Run sdp_argv;
       Run (convert_command converter header_path (output_dir </> [pdf_name ++ str ".pdf"]));
       log (str "Wrote " ++ path_str rel)].
Proof.
  intros safe_name tmp_dir header_path sdp_argv Hroot Hnew Hfound Hsdp Hrc Hheader Hconv.
  destruct (unique_name_spec safe_name used_names) as (pdf_name & Hunique & Hfresh & Hfirst).
  destruct (Hconv (output_dir </> [pdf_name ++ str ".pdf"])) as [Hcrc Hwrote].
  destruct (relative_to_app output_dir [pdf_name ++ str ".pdf"] _ Hroot) as [rel Hrel].
  exists pdf_name, rel.
  subst safe_name tmp_dir header_path sdp_argv.
  unfold process_app. rewrite Hunique. msimpl. rewrite bool_decide_false by done.
  destruct (find_script_resources _ _ _ _) as [found effects]. cbn in Hfound. subst found. cbn.
  rewrite run_sdp_eq, Hsdp. cbv zeta. rewrite Hrc, Hheader.
  rewrite bool_decide_false by (by intros Hne; apply Hne). cbv iota beta.
  rewrite convert_to_pdf_eq. cbv zeta. unfold joinpath in *.
  rewrite Hcrc, Hwrote, bool_decide_false by (by intros Hne; apply Hne).
  cbn. rewrite Hrel. cbn.
  eexists. split; [done|]. cbn. rewrite last_child, <-!app_assoc. done.
Qed.

Lemma process_app_writes_pdf_witness :
  let env := sample_env (Some 1%Z) (Some (str "/usr/bin/sdp")) true 0 in
  ∃ pdf_name rel w',
    process_app env (output sample_args) [str "text2pdf"] notes_app
        (notes_info (str "com.example.notes")) ∅ sample_world
      = (Return ({[pdf_name]} ∪ ∅), w') ∧
    (pdf_name ∉ (∅ : gset pystr)) ∧
    (str "Notes" ∉ (∅ : gset pystr) → pdf_name = str "Notes") ∧
    out_files w' = {[pdf_name ++ str ".pdf"]} ∪ ∅ ∧
    relative_to (output sample_args </> [pdf_name ++ str ".pdf"]) [str "/"; str "repo"]
      = Some rel ∧
    trace w' =
      [Run [str "/usr/bin/sdp"; str "-fh"; str "--basename"; str "Notes";
            str "/Applications/Notes.app/Contents/Resources/Notes.sdef"];
       Run (convert_command [str "text2pdf"] [str "/"; str "tmp"; str "work"; str "Notes.h"]
              (output sample_args </> [pdf_name ++ str ".pdf"]));
       log (str "Wrote " ++ path_str rel)].
Proof.
  intros env.
  apply (process_app_writes_pdf env (output sample_args) [str "text2pdf"] notes_app
           (notes_info (str "com.example.notes")) ∅ sample_world
           (notes_app </> [str "Contents"; str "Resources"; str "Notes.sdef"]) []
           (str "/usr/bin/sdp")).
  - exists [str "AppScripts"]. vm_compute. reflexivity.
  - apply (bool_decide_unpack _). vm_compute. reflexivity.
  - vm_compute. reflexivity.
  - reflexivity.
  - reflexivity.
  - reflexivity.
  - intros pdf_path. split; reflexivity.
Defined.

(** X7: The message of the skip is built with [relative_to(WORKSPACE_ROOT)]:
    when the PDF of the first bundle of the run exists in an output
    directory outside the work space, [ValueError] is raised, and [main],
    which catches [GenerationError] alone, does not return an exit
    code. *)
Theorem skip_message_raises_outside_workspace (env : Env) (args : Args) (w : World)
    (binary_time source_time : Z) (app : Path) (apps : list Path) (info : Info) :
  let safe_name := sanitize_filename (nfkd env) (app_name_of app info) in
  let scope :=
    if user_only args then str "user"
    else if system_only args then str "system" else str "all" in
  source_mtime env = Some source_time →
  binary_mtime w = Some binary_time →
  (source_time ≤ binary_time)%Z →
  app_candidates env (search_paths env scope) = app :: apps →
  is_dir env app = true →
  read_plist env app = PlistLoaded info →
  safe_name ++ str ".pdf" ∈ out_files w →
  relative_to (output args </> [safe_name ++ str ".pdf"]) (WORKSPACE_ROOT env) = None →
  main env args w = (Raise ValueError, w).
Proof.
  intros safe_name scope Hsource Hbinary Hle Happs Hdir Hplist Hexists Hrel.
  subst safe_name. unfold main, generate_pdfs. fold scope. rewrite Happs.
  unfold ensure_text2pdf. rewrite Hsource. msimpl. rewrite Hbinary. cbn.
  rewrite (proj2 (Z.ltb_ge _ _)) by lia. cbn.
  rewrite Hdir. cbn. unfold load_info_plist. rewrite Hplist. msimpl.
  rewrite bool_decide_false by set_solver.
  unfold process_app. msimpl. rewrite bool_decide_true by done.
  unfold joinpath in Hrel. by rewrite Hrel.
Qed.

Lemma skip_message_raises_outside_workspace_witness :
  let env := sample_env (Some 1%Z) (Some (str "/usr/bin/sdp")) true 0 in
  let args := {| output := [str "/"; str "tmp"; str "out"];
                 user_only := false; system_only := false |} in
  let w := {| out_files := {[str "Notes.pdf"]}; binary_mtime := Some 5%Z; trace := [] |} in
  main env args w = (Raise ValueError, w).
Proof.
  intros env args w.
  apply (skip_message_raises_outside_workspace env args w 5 1 notes_app [other_notes_app]
           (notes_info (str "com.example.notes"))).
  - reflexivity.
  - reflexivity.
  - lia.
  - vm_compute. reflexivity.
  - reflexivity.
  - reflexivity.
  - apply (bool_decide_unpack _). vm_compute. reflexivity.
  - vm_compute. reflexivity.
Defined.

End GeneratorItems.

Module GeneratorNames.
Import Generator GeneratorFacts GeneratorItems.

Lemma elem_of_pdf_stems (stem : pystr) (files : gset pystr) :
  stem ∈ pdf_stems files ↔
  ∃ name, name ∈ files ∧ py_endswith (str ".pdf") name = true ∧ stem = name_stem name.
Proof.
  unfold pdf_stems. rewrite elem_of_map. split.
  - intros (name & -> & Hin). apply elem_of_filter in Hin as [Hpdf Hin].
    exists name. split_and!; [done| |done]. by apply Is_true_true.
  - intros (name & Hin & Hpdf & ->). exists name. split; [done|].
    apply elem_of_filter. split; [|done]. by apply Is_true_true.
Qed.

(** While the stems of the PDFs present are registered, an unused name
    gives a file that is not there, and stays registered once written. *)
Lemma fresh_name_fresh_file (files used : gset pystr) (name : pystr) :
  pdf_stems files ⊆ used → name ≠ [] → name ∉ used →
  (name ++ str ".pdf" ∉ files) ∧
  pdf_stems ({[name ++ str ".pdf"]} ∪ files) ⊆ {[name]} ∪ used.
Proof.
  intros Hinv Hne Hfresh. split.
  - intros Hin. apply Hfresh, Hinv, elem_of_pdf_stems.
    exists (name ++ str ".pdf"). split_and!; [done|apply py_endswith_app|].
    by rewrite name_stem_pdf.
  - intros stem Hstem. apply elem_of_pdf_stems in Hstem as (file & Hin & Hpdf & ->).
    apply elem_of_union in Hin as [Hin|Hin].
    + apply elem_of_singleton in Hin as ->. rewrite name_stem_pdf by done. set_solver.
    + apply elem_of_union_r, Hinv, elem_of_pdf_stems. by exists file.
Qed.

(** X8: No PDF is overwritten.  While the stems of the PDFs in the output
    directory are among the used names, as they are when [generate_pdfs]
    starts its loop, one iteration leaves the directory as it is or adds
    one PDF, whose name was neither used nor present; and if the
    iteration returns, the used names have only grown and still hold the
    stems of all PDFs present. *)
Theorem process_app_never_overwrites (env : Env) (output_dir converter app : Path)
    (info : Info) (used_names : gset pystr) (w : World) :
  pdf_stems (out_files w) ⊆ used_names →
  ∃ r w',
    process_app env output_dir converter app info used_names w = (r, w') ∧
    (out_files w' = out_files w ∨
     ∃ pdf_name,
       (pdf_name ∉ used_names) ∧ (pdf_name ++ str ".pdf" ∉ out_files w) ∧
       out_files w' = {[pdf_name ++ str ".pdf"]} ∪ out_files w) ∧
    (∀ used, r = Return used →
       used_names ⊆ used ∧ pdf_stems (out_files w') ⊆ used).
Proof.
  intros Hinv.
  destruct (unique_name_spec (sanitize_filename (nfkd env) (app_name_of app info)) used_names)
    as (pdf_name & Hunique & Hfresh & _).
  pose proof (unique_name_nonempty _ _ _ _ (sanitize_filename_nonempty _ _) Hunique) as Hne.
  destruct (fresh_name_fresh_file _ _ _ Hinv Hne Hfresh) as [Hnew Hinv'].
  unfold process_app. rewrite Hunique. msimpl.
  case_bool_decide.
  { destruct (relative_to _ _); cbn; do 2 eexists; (split; [done|]); cbn;
      (split; [by left|]); intros used [= <-]; done. }
  destruct (find_script_resources _ _ _ _) as [[[|input inputs]|] effects]; cbn.
  1, 3: do 2 eexists; (split; [done|]); cbn; (split; [by left|]); by intros used [= <-].
  rewrite run_sdp_eq.
  destruct (which env (str "sdp")) as [sdp|]; cbn.
  2: { do 2 eexists. split; [done|]. cbn. split; [by left|]. by intros used [= <-]. }
  case_bool_decide; cbn.
  { do 2 eexists. split; [done|]. cbn. split; [by left|]. by intros used [= <-]. }
  destruct (sdp_header _); cbn.
  2: { do 2 eexists. split; [done|]. cbn. split; [by left|]. by intros used [= <-]. }
  rewrite convert_to_pdf_eq. cbv zeta. unfold joinpath. rewrite last_child.
  destruct (convert_wrote _); case_bool_decide; cbn;
    try destruct (relative_to _ _); cbn;
    do 2 eexists; (split; [done|]); cbn.
  all: split;
    [first [by left | right; exists pdf_name; by split_and!]
    |intros used Heq;
     first [discriminate|injection Heq as <-; split; [set_solver|]; try done]].
  all: etrans; [exact Hinv|set_solver].
Qed.

Lemma process_app_never_overwrites_witness :
  let env := sample_env (Some 1%Z) (Some (str "/usr/bin/sdp")) true 0 in
  let w := {| out_files := {[str "Mail.pdf"]}; binary_mtime := Some 5%Z; trace := [] |} in
  ∃ r w',
    process_app env (output sample_args) [str "text2pdf"] notes_app
        (notes_info (str "com.example.notes")) {[str "Mail"]} w = (r, w') ∧
    (out_files w' = out_files w ∨
     ∃ pdf_name,
       (pdf_name ∉ ({[str "Mail"]} : gset pystr)) ∧ (pdf_name ++ str ".pdf" ∉ out_files w) ∧
       out_files w' = {[pdf_name ++ str ".pdf"]} ∪ out_files w) ∧
    (∀ used, r = Return used →
       {[str "Mail"]} ⊆ used ∧ pdf_stems (out_files w') ⊆ used).
Proof.
  intros env w.
  apply (process_app_never_overwrites env (output sample_args) [str "text2pdf"] notes_app
           (notes_info (str "com.example.notes")) {[str "Mail"]} w).
  apply (bool_decide_unpack _). vm_compute. reflexivity.
Defined.

End GeneratorNames.

Module GeneratorInputs.
Import Generator GeneratorFacts.

(** X9: A scripting definition declared in [Info.plist] is final.  When the
    key holds non-empty bytes or a non-empty string, the result does not
    depend on what the Resources tree holds (two file systems that agree
    on [exists] give the same result and effects).  Bytes are written,
    all of them, to [dictionary.sdef] in the temporary directory, which
    is the result.  A string is read as a path, taken as it is when
    absolute and below [Contents/Resources] otherwise: when that path
    exists it is the result, and when it does not the result is [None]
    after one warning that quotes the string, and the tree is not
    searched.  A result is a single path. *)
Theorem declared_definition_skips_search (fs1 fs2 : FS) (app_path : Path) (info : Info)
    (temp_dir : Path) :
  declares_definition info = true →
  (∀ p, fs_exists fs1 p = fs_exists fs2 p) →
  find_script_resources fs1 app_path info temp_dir
    = find_script_resources fs2 app_path info temp_dir ∧
  (∀ data, OSAScriptingDefinition info = Some (PData data) →
     find_script_resources fs1 app_path info temp_dir
     = (Some [temp_dir </> [str "dictionary.sdef"]],
        [WriteBytes (temp_dir </> [str "dictionary.sdef"]) data])) ∧
  (∀ text, OSAScriptingDefinition info = Some (PString text) →
     let candidate :=
       if is_absolute (path_of text) then path_of text
       else resource_root app_path </> path_of text in
     find_script_resources fs1 app_path info temp_dir
     = if fs_exists fs1 candidate then (Some [candidate], [])
       else (None,
             [warn (path_stem app_path
                    ++ str ": Info.plist references OSAScriptingDefinition '" ++ text
                    ++ str "', but the resource was not found.")])) ∧
  (∀ inputs, (find_script_resources fs1 app_path info temp_dir).1 = Some inputs →
     length inputs = 1%nat) ∧
  ((find_script_resources fs1 app_path info temp_dir).1 = None →
   ∃ msg, (find_script_resources fs1 app_path info temp_dir).2 = [warn msg]).
Proof.
  unfold declares_definition, find_script_resources, resource_root.
  intros Hdeclared Hexists.
  destruct (OSAScriptingDefinition info) as [[[|byte data]|[|ch text]|other]|]; try done.
  - split_and!; [done|by intros ? [= <-]|done|by intros inputs [= <-]|done].
  - rewrite <-Hexists. split_and!; [done|done| | |].
    + intros ? [= <-]. cbv zeta. by destruct (fs_exists fs1 _).
    + destruct (fs_exists fs1 _); cbn; [by intros inputs [= <-]|done].
    + destruct (fs_exists fs1 _); cbn; [done|by eexists].
Qed.

(** [Info.plist] names [Demo.sdef], which is in Resources beside
    [Other.sdef]: the file named is the result. *)
Lemma declared_definition_skips_search_witness :
  find_script_resources (demo_fs [[str "Other.sdef"]; [str "Demo.sdef"]]) demo_app
    (declaring_info (PString (str "Demo.sdef"))) [str "/"; str "tmp"]
  = (Some [demo_root </> [str "Demo.sdef"]], []).
Proof.
  destruct (declared_definition_skips_search
              (demo_fs [[str "Other.sdef"]; [str "Demo.sdef"]])
              (demo_fs [[str "Other.sdef"]; [str "Demo.sdef"]]) demo_app
              (declaring_info (PString (str "Demo.sdef"))) [str "/"; str "tmp"]
              eq_refl (λ p, eq_refl))
    as (_ & _ & Hstring & _).
  rewrite (Hstring _ eq_refl). vm_compute. reflexivity.
Defined.

(** X10: The search roots: the default scope covers the roots of the user
    scope and of the system scope and nothing else, and every scope
    searches roots of the default one only. *)
Theorem search_paths_cover (env : Env) :
  search_paths env (str "all")
    ≡ₚ search_paths env (str "user") ++ search_paths env (str "system") ∧
  (∀ scope, search_paths env scope ⊆ APP_SEARCH_PATHS env).
Proof.
  split.
  - unfold search_paths, APP_SEARCH_PATHS.
    rewrite (bool_decide_false (str "all" = str "user")) by (by vm_compute).
    rewrite (bool_decide_false (str "all" = str "system")) by (by vm_compute).
    rewrite (bool_decide_true (str "user" = str "user")) by done.
    rewrite (bool_decide_false (str "system" = str "user")) by (by vm_compute).
    rewrite (bool_decide_true (str "system" = str "system")) by done.
    cbn [app]. apply perm_skip. symmetry.
    apply (Permutation_cons_append
             [[str "/"; str "System"; str "Applications"];
              [str "/"; str "System"; str "Applications"; str "Utilities"];
              [str "/"; str "System"; str "Library"; str "CoreServices"]]).
  - intros scope. unfold search_paths, APP_SEARCH_PATHS.
    repeat case_bool_decide; set_solver.
Qed.

(** X11: The base name handed to [sdp] is never empty and holds only ASCII
    letters and digits, so the header [f'{basename}.h'] is a file of the
    work directory itself. *)
Theorem sdp_basename_alnum (safe_name : pystr) :
  sdp_basename safe_name ≠ [] ∧
  Forall (λ ch, ascii_isalnum ch = true) (sdp_basename safe_name) ∧
  (47 ∉ sdp_basename safe_name).
Proof.
  assert (Hall : Forall (λ ch, ascii_isalnum ch = true) (sdp_basename safe_name)).
  { unfold sdp_basename, py_or.
    destruct (filter _ safe_name) as [|ch kept] eqn:Hkept.
    - apply (bool_decide_unpack _). vm_compute. reflexivity.
    - rewrite <-Hkept. apply Forall_forall. intros c Hc.
      apply list_elem_of_filter in Hc as [Hc _]. by apply Is_true_true. }
  split_and!; [|done|].
  - unfold sdp_basename, py_or. by destruct (filter _ safe_name).
  - intros Hin. rewrite Forall_forall in Hall. by apply Hall in Hin.
Qed.

End GeneratorInputs.

(** ** The converter *)
Module ConverterFacts.
Import Converter.

Ltac conv_simpl :=
  unfold mbind, M_bind, mret, M_ret, emit, get, raise, set_binary, set_text_dir,
    try_except, joinpath; cbn -[up_to_date for_pdfs].

Section converter_facts.
Variable env : Env.

Lemma for_pdfs_returns converter text_path target_dir pdf_files w :
  ∃ w', for_pdfs env converter text_path target_dir pdf_files w = (Return (), w').
Proof.
  revert w. induction pdf_files as [|[pdf_name pdf] pdf_files IH]; intros w; [by eexists|]. cbn -[up_to_date].
  conv_simpl. destruct (up_to_date _ _ _); [apply IH|].
  destruct (convert_output _); cbn; case_bool_decide; cbn; apply IH.
Qed.

Lemma for_pdfs_failure converter text_path target_dir pdf_name pdf pdf_files w :
  let txt_name := name_stem pdf_name ++ str ".txt" in
  let command := convert_command converter (target_dir </> [pdf_name]) (text_path </> [txt_name]) in
  let result := convert_run env command in
  up_to_date txt_name pdf (default [] (text_dir w)) = false →
  returncode (convert_proc result) ≠ 0%Z →
  for_pdfs env converter text_path target_dir ((pdf_name, pdf) :: pdf_files) w
  = for_pdfs env converter text_path target_dir pdf_files
      {| pdf_dir := pdf_dir w;
         text_dir :=
           match convert_output result with
           | Some txt => Some (write_entry txt_name txt (default [] (text_dir w)))
           | None => text_dir w
           end;
         text_is_file := text_is_file w;
         binary_mtime := binary_mtime w;
         trace := trace w ++
           [log (str "Extracting text from " ++ pdf_name); Run command;
            warn (str "Failed to convert " ++ pdf_name ++ str ": " ++
                  py_or (proc_stderr (convert_proc result))
                        (proc_stdout (convert_proc result)))] |}.
Proof.
  intros txt_name command result Hstale Hrc. cbn -[up_to_date]. conv_simpl.
  fold txt_name. rewrite Hstale.
  unfold result, command, joinpath in *.
  destruct (convert_output _); cbn; rewrite bool_decide_true by done; cbn;
    unfold extend; cbn -[for_pdfs]; rewrite <-?app_assoc; reflexivity.
Qed.

Lemma sorted_glob_nil suffix (d : Dir) :
  Forall (λ e, py_endswith suffix e.1 = false) d → sorted_glob suffix d = [].
Proof.
  intros Hall. unfold sorted_glob.
  replace (filter _ d) with (@nil (pystr * File)); [done|].
  symmetry. induction Hall as [|e d He Hd IH]; [done|].
  cbv beta in He. rewrite filter_cons_False; [exact IH|]. cbv beta. rewrite He. exact id.
Qed.
End converter_facts.

(** C9: when the target directory exists and holds no [.pdf] file,
    [convert_pdfs] returns after one warning and nothing else: the trace
    gains that warning alone (no compiler run, no file written), the
    converter binary, the text directory (still absent if it was) and
    the PDF directory are as before; [main] then returns 0. *)
Theorem convert_pdfs_without_pdfs (env : Env) (target_dir : Path) (entries : Dir) (w : World) :
  pdf_dir w = Some entries →
  Forall (λ e, py_endswith (str ".pdf") e.1 = false) entries →
  ∃ w',
    convert_pdfs env target_dir w = (Return (), w') ∧
    trace w' = trace w ++ [warn (str "No PDF files found in " ++ path_str target_dir)] ∧
    binary_mtime w' = binary_mtime w ∧
    text_dir w' = text_dir w ∧
    pdf_dir w' = pdf_dir w ∧
    main env w = (Return 0%Z,
                  extend w [warn (str "No PDF files found in " ++ path_str (APPSCRIPTS_DIR env))]).
Proof.
  intros Hdir Hnone.
  assert (Heq : ∀ target, convert_pdfs env target w =
    (Return (), extend w [warn (str "No PDF files found in " ++ path_str target)])).
  { intros target. unfold convert_pdfs. conv_simpl. rewrite Hdir.
    by rewrite sorted_glob_nil. }
  eexists. split; [apply Heq|]. split_and!; try done.
  unfold main. conv_simpl. by rewrite Heq.
Qed.

(** C9 at a directory that holds one file that is no PDF. *)
Lemma convert_pdfs_without_pdfs_witness :
  let env := sample_env 0 in
  let w := sample_world [(str "notes.md", {| st_mtime := 2; contents := [] |})] None in
  ∃ w',
    convert_pdfs env (APPSCRIPTS_DIR env) w = (Return (), w') ∧
    trace w' = trace w ++ [warn (str "No PDF files found in " ++ path_str (APPSCRIPTS_DIR env))] ∧
    binary_mtime w' = binary_mtime w ∧
    text_dir w' = text_dir w ∧
    pdf_dir w' = pdf_dir w ∧
    main env w = (Return 0%Z,
                  extend w [warn (str "No PDF files found in " ++ path_str (APPSCRIPTS_DIR env))]).
Proof.
  apply (convert_pdfs_without_pdfs (sample_env 0) (APPSCRIPTS_DIR (sample_env 0))
           [(str "notes.md", {| st_mtime := 2; contents := [] |})]).
  - reflexivity.
  - repeat constructor.
Defined.

Lemma pystr_leb_total s t : pystr_leb s t = true ∨ pystr_leb t s = true.
Proof.
  revert t. induction s as [|a s IH]; intros [|b t]; simpl; auto.
  destruct (N.ltb_spec a b), (N.ltb_spec b a), (N.eqb_spec a b), (N.eqb_spec b a);
    simpl; auto; lia.
Qed.

Lemma pystr_leb_trans s t u :
  pystr_leb s t = true → pystr_leb t u = true → pystr_leb s u = true.
Proof.
  revert t u. induction s as [|a s IH]; intros [|b t] [|c u]; simpl; auto; try done.
  destruct (N.ltb_spec a b), (N.ltb_spec b c), (N.ltb_spec a c),
    (N.eqb_spec a b), (N.eqb_spec b c), (N.eqb_spec a c); simpl; try done; try lia.
  apply IH.
Qed.

Lemma pystr_leb_antisym s t : pystr_leb s t = true → pystr_leb t s = true → s = t.
Proof.
  revert t. induction s as [|a s IH]; intros [|b t]; simpl; try done.
  destruct (N.ltb_spec a b), (N.ltb_spec b a), (N.eqb_spec a b), (N.eqb_spec b a);
    simpl; try done; try lia.
  intros ??. subst. f_equal. by apply IH.
Qed.

#[global] Instance pystr_leb_antisymm : AntiSymm (=) (λ s t, pystr_leb s t = true).
Proof. intros s t. apply pystr_leb_antisym. Qed.

Lemma insert_sorted_names x (d : Dir) :
  (insert_sorted entry_leb x d).*1 = insert_sorted pystr_leb x.1 d.*1.
Proof.
  induction d as [|y d IH]; [done|]. cbn. unfold entry_leb at 1.
  destruct (pystr_leb x.1 y.1); cbn; [done|]. by rewrite IH.
Qed.

Lemma py_sorted_names (d : Dir) : (py_sorted entry_leb d).*1 = py_sorted pystr_leb d.*1.
Proof.
  induction d as [|x d IH]; [done|]. unfold py_sorted in *. rewrite fmap_cons. cbn [foldr].
  by rewrite insert_sorted_names, IH.
Qed.

Lemma filter_names (P : pystr → bool) (d : Dir) :
  (filter (λ e, P e.1) d).*1 = filter (λ name, P name) d.*1.
Proof.
  induction d as [|x d IH]; [done|]. rewrite fmap_cons.
  destruct (P x.1) eqn:HP.
  - rewrite !filter_cons_True by (by rewrite HP). by rewrite fmap_cons, IH.
  - rewrite !filter_cons_False by (rewrite HP; exact id). done.
Qed.

Lemma txt_names_eq d :
  txt_names d = py_sorted pystr_leb (filter (λ name, py_endswith (str ".txt") name) d.*1).
Proof. unfold txt_names, sorted_glob. by rewrite py_sorted_names, filter_names. Qed.

Lemma txt_names_perm d :
  txt_names d ≡ₚ filter (λ name, py_endswith (str ".txt") name) d.*1.
Proof. rewrite txt_names_eq. apply py_sorted_perm. Qed.

Lemma txt_names_sorted d : StronglySorted (λ s t, pystr_leb s t = true) (txt_names d).
Proof.
  rewrite txt_names_eq. apply py_sorted_sorted; [apply pystr_leb_total|apply pystr_leb_trans].
Qed.

Lemma readme_entries_bullets d : readme_entries d = bullet <$> txt_names d.
Proof.
  unfold readme_entries, txt_names.
  assert (Hall : Forall (λ e, py_endswith (str ".txt") e.1 = true) (sorted_glob (str ".txt") d)).
  { apply Forall_forall. intros e He. unfold sorted_glob in He.
    rewrite py_sorted_perm in He. apply list_elem_of_filter in He as [He _].
    by apply Is_true_true. }
  induction Hall as [|e l He Hl IH]; [done|].
  cbn. rewrite bool_decide_false; [by rewrite IH|].
  intros Heq. rewrite Heq in He. by vm_compute in He.
Qed.

Lemma txt_names_permutation d1 d2 : d1.*1 ≡ₚ d2.*1 → txt_names d1 = txt_names d2.
Proof.
  intros Hperm. apply (StronglySorted_unique (λ s t, pystr_leb s t = true));
    [apply txt_names_sorted..|].
  rewrite !txt_names_perm. by rewrite Hperm.
Qed.

Lemma readme_text_names d1 d2 : txt_names d1 = txt_names d2 → readme_text d1 = readme_text d2.
Proof.
  intros Heq. unfold readme_text, readme_lines. by rewrite !readme_entries_bullets, Heq.
Qed.

Lemma filter_write_entry (P : pystr → bool) name f (d : Dir) :
  P name = false →
  filter (λ e, P e.1) (write_entry name f d) = filter (λ e, P e.1) d.
Proof.
  intros HP. induction d as [|[n g] d IH]; cbn [write_entry].
  - rewrite filter_cons_False; [done|]. cbn. rewrite HP. exact id.
  - case_bool_decide as Hn.
    + subst n. rewrite !filter_cons_False; [done|cbn; rewrite HP; exact id..].
    + destruct (P n) eqn:HPn.
      * rewrite !filter_cons_True by (cbn; by rewrite HPn). by rewrite IH.
      * rewrite !filter_cons_False by (cbn; rewrite HPn; exact id). done.
Qed.

Lemma lookup_write_entry name f d : lookup_entry name (write_entry name f d) = Some f.
Proof.
  induction d as [|[n g] d IH]; cbn; [by rewrite bool_decide_true|].
  case_bool_decide as Hn; cbn; [by rewrite bool_decide_true|].
  by rewrite bool_decide_false.
Qed.

Lemma lookup_write_entry_ne name name' f d :
  name ≠ name' → lookup_entry name' (write_entry name f d) = lookup_entry name' d.
Proof.
  intros Hne. induction d as [|[n g] d IH]; cbn; [by rewrite bool_decide_false|].
  case_bool_decide as Hn; cbn.
  - subst n. by rewrite !bool_decide_false.
  - case_bool_decide; [done|apply IH].
Qed.

Lemma txt_names_write_readme f d : txt_names (write_entry (str "README.md") f d) = txt_names d.
Proof.
  unfold txt_names, sorted_glob.
  by rewrite (filter_write_entry (py_endswith (str ".txt"))).
Qed.

(** C8: the text of [README.md] is a function of the names in the
    text directory.  (1) With no [.txt] file it is the fixed header and
    the line [No text exports available.]; (2) the names listed are
    exactly the [.txt] names of the directory, in sorted order, and with
    at least one of them the text is the header followed by one bullet
    per name in that order; (3) two directories with the same names, in
    any scan order and with any file contents, give the same text;
    (4) running [build_readme] twice writes the same [README.md] both
    times: the file of the first run does not show up in the second. *)
Theorem build_readme_deterministic (env : Env) :
  (∀ d : Dir,
     Forall (λ e, py_endswith (str ".txt") e.1 = false) d →
     readme_text d =
       str "# Extracted AppleScript Dictionaries" ++ [10; 10] ++
       str "Text exports generated from Objective-C scripting bridge headers." ++ [10; 10] ++
       str "No text exports available." ++ [10]) ∧
  (∀ d : Dir,
     txt_names d ≡ₚ filter (λ name, py_endswith (str ".txt") name) d.*1 ∧
     StronglySorted (λ s t, pystr_leb s t = true) (txt_names d) ∧
     (txt_names d ≠ [] →
      readme_text d =
        py_join [10]
          ([str "# Extracted AppleScript Dictionaries"; [];
            str "Text exports generated from Objective-C scripting bridge headers."; []]
           ++ (bullet <$> txt_names d) ++ [[]]))) ∧
  (∀ d1 d2 : Dir, d1.*1 ≡ₚ d2.*1 → readme_text d1 = readme_text d2) ∧
  (∀ (text_path : Path) (w : World),
     ∃ w1 w2 readme,
       build_readme env text_path w = (Return (), w1) ∧
       build_readme env text_path w1 = (Return (), w2) ∧
       lookup_entry (str "README.md") (default [] (text_dir w1)) = Some readme ∧
       lookup_entry (str "README.md") (default [] (text_dir w2)) = Some readme ∧
       contents readme = readme_text (default [] (text_dir w))).
Proof.
  split_and!.
  - intros d Hnone. unfold readme_text, readme_lines, readme_entries.
    rewrite sorted_glob_nil by done. vm_compute. reflexivity.
  - intros d. split_and!; [apply txt_names_perm|apply txt_names_sorted|].
    intros Hne. unfold readme_text, readme_lines. rewrite readme_entries_bullets.
    destruct (txt_names d); [done|]. rewrite fmap_cons. by rewrite <-app_assoc.
  - intros d1 d2 Hperm. by apply readme_text_names, txt_names_permutation.
  - intros text_path w. unfold build_readme. conv_simpl.
    do 3 eexists. split_and!; [done|done|apply lookup_write_entry| |done].
    cbn. rewrite lookup_write_entry. f_equal. f_equal.
    apply readme_text_names, txt_names_write_readme.
Qed.

Lemma py_join_snoc_inj sep l a b :
  py_join sep (l ++ [a]) = py_join sep (l ++ [b]) → a = b.
Proof.
  induction l as [|x l IH]; [done|].
  cbn [app py_join].
  destruct (l ++ [a]) eqn:Ea; [by destruct l|].
  destruct (l ++ [b]) eqn:Eb; [by destruct l|].
  intros H. apply app_inv_head, app_inv_head in H. rewrite <-Ea, <-Eb in H, IH. by apply IH.
Qed.

Lemma path_str_child_inj (p : Path) a b : path_str (p ++ [a]) = path_str (p ++ [b]) → a = b.
Proof.
  destruct p as [|root rest]; cbn.
  - destruct (py_startswith _ a), (py_startswith _ b); rewrite ?app_nil_r; try done.
    all: intros <-; by rewrite ?app_nil_r.
  - destruct (py_startswith _ root).
    + intros H. apply app_inv_head in H. by apply py_join_snoc_inj in H.
    + apply (py_join_snoc_inj _ (root :: rest)).
Qed.

Lemma txt_name_not_readme stem : stem ++ str ".txt" ≠ str "README.md".
Proof.
  intros H. apply (f_equal reverse) in H. rewrite reverse_app in H.
  vm_compute in H. discriminate.
Qed.

Section skip_facts.
Variables (env : Env) (converter text_path target_dir : Path).
Variables (pdf_name : pystr) (pdf txt : File).

Let txt_name := name_stem pdf_name ++ str ".txt".
Let command :=
  convert_command converter (target_dir </> [pdf_name]) (text_path </> [txt_name]).

Lemma for_pdfs_keeps_text pdf_files w :
  (∀ name file, (name, file) ∈ pdf_files →
     name_stem name ++ str ".txt" = txt_name → file = pdf) →
  lookup_entry txt_name (default [] (text_dir w)) = Some txt →
  (st_mtime pdf ≤ st_mtime txt)%Z →
  ∃ w' new,
    for_pdfs env converter text_path target_dir pdf_files w = (Return (), w') ∧
    trace w' = trace w ++ new ∧
    (Run command ∉ new) ∧
    pdf_dir w' = pdf_dir w ∧
    binary_mtime w' = binary_mtime w ∧
    lookup_entry txt_name (default [] (text_dir w')) = Some txt.
Proof.
  intros Hsame Htxt Hnewer. revert w Htxt.
  induction pdf_files as [|[name file] pdf_files IH]; intros w Htxt.
  { exists w, []. cbn. rewrite app_nil_r. split_and!; try done. apply not_elem_of_nil. }
  assert (Hrest : ∀ name file, (name, file) ∈ pdf_files →
            name_stem name ++ str ".txt" = txt_name → file = pdf).
  { intros n f Hin. apply Hsame. by right. }
  specialize (IH Hrest).
  cbn -[up_to_date]. conv_simpl.
  destruct (up_to_date (name_stem name ++ str ".txt") file (default [] (text_dir w)))
    eqn:Hup.
  - destruct (IH (extend w [log (str "Skipping " ++ name ++ str ": text already up to date")]))
      as (w' & new & -> & Htrace & Hrun & Hpdf & Hbin & Hlook); [done|].
    exists w'. eexists. split; [done|]. cbn in Htrace. rewrite <-app_assoc in Htrace.
    split_and!; [done| |done..].
    intros Hin. apply elem_of_cons in Hin as [?|?]; done.
  - assert (Hne : name_stem name ++ str ".txt" ≠ txt_name).
    { intros Heq. pose proof (Hsame name file (list_elem_of_here _ _) Heq) as ->.
      unfold up_to_date in Hup. rewrite Heq, Htxt in Hup.
      apply Z.leb_gt in Hup. lia. }
    assert (Hcmd : convert_command converter (target_dir ++ [name])
                     (text_path ++ [name_stem name ++ str ".txt"]) ≠ command).
    { unfold command, convert_command, joinpath. intros [= _ Heq].
      by apply path_str_child_inj in Heq. }
    destruct (convert_output _) as [f|]; cbn; case_bool_decide; cbn.
    all: edestruct IH as (w' & new & Heq & Htrace & Hrun & Hpdf & Hbin & Hlook); cycle 1.
    all: try (rewrite Heq; exists w'; eexists; split; [done|]).
    all: try (cbn in Htrace; rewrite <-?app_assoc in Htrace; cbn in Htrace).
    all: try (split_and!; [exact Htrace| |done..]).
    all: try (intros Hin;
              repeat (apply elem_of_cons in Hin as [Hin|Hin];
                      [unfold log, warn in Hin; congruence|]); done).
    all: cbn; rewrite ?lookup_write_entry_ne by done; done.
Qed.
End skip_facts.

Lemma NoDup_fst_unique {A B} (l : list (A * B)) x y1 y2 :
  NoDup l.*1 → (x, y1) ∈ l → (x, y2) ∈ l → y1 = y2.
Proof.
  induction l as [|[a b] l IH]; [by intros _ ?%elem_of_nil|].
  rewrite fmap_cons, NoDup_cons. intros [Hnot Hdup] H1 H2.
  apply elem_of_cons in H1 as [H1|H1], H2 as [H2|H2].
  - congruence.
  - exfalso. apply Hnot. apply list_elem_of_fmap. exists (x, y2). split; [|done]. by injection H1.
  - exfalso. apply Hnot. apply list_elem_of_fmap. exists (x, y1). split; [|done]. by injection H2.
  - by apply IH.
Qed.

Section convert_facts.
Variable env : Env.

Lemma ensure_tool_frame w :
  ∃ r w1 new,
    ensure_tool env w = (r, w1) ∧
    trace w1 = trace w ++ new ∧
    pdf_dir w1 = pdf_dir w ∧
    text_dir w1 = text_dir w ∧
    text_is_file w1 = text_is_file w ∧
    (∀ argv, Run argv ∈ new → length argv = 8%nat) ∧
    match r with
    | Return converter => converter = TOOL_BUILD_DIR env </> [str "pdf2text"]
    | Raise (ConversionError _) => True
    | _ => False
    end.
Proof.
  unfold ensure_tool.
  destruct (source_mtime env) as [source_time|]; conv_simpl.
  2: { do 2 eexists. exists []. rewrite app_nil_r. split_and!; try done.
       intros argv Hin. by apply elem_of_nil in Hin. }
  destruct (needs_rebuild _ _).
  2: { do 2 eexists. exists []. rewrite app_nil_r. split_and!; try done.
       intros argv Hin. by apply elem_of_nil in Hin. }
  destruct (which env (str "swiftc")) as [swiftc|]; conv_simpl.
  2: { do 2 eexists. exists []. rewrite app_nil_r. split_and!; try done.
       intros argv Hin. by apply elem_of_nil in Hin. }
  destruct (compile_binary _); cbn; case_bool_decide; cbn;
    do 3 eexists; (split; [done|]); cbn; rewrite <-?app_assoc;
    (split_and!; [done|done|done|done| |done]);
    intros argv Hin;
    repeat (apply elem_of_cons in Hin as [Hin|Hin];
            [unfold log in Hin; try discriminate; by injection Hin as ->|]);
    by apply elem_of_nil in Hin.
Qed.
End convert_facts.

(** C5, amended: in a directory of distinct names, for a PDF whose text
    file exists with a modification time not older than the PDF's, and
    whose stem no other PDF of the directory shares, a run of
    [convert_pdfs] never invokes the converter for that pair, and the
    text file is afterwards what it was (contents and time stamp),
    whatever else the run does. *)
Theorem up_to_date_text_is_kept (env : Env) (target_dir : Path) (w : World)
    (entries d : Dir) (pdf_name : pystr) (pdf txt : File) :
  let txt_name := name_stem pdf_name ++ str ".txt" in
  let converter := TOOL_BUILD_DIR env </> [str "pdf2text"] in
  let text_path := target_dir </> [str "text"] in
  pdf_dir w = Some entries →
  text_dir w = Some d →
  NoDup entries.*1 →
  (pdf_name, pdf) ∈ entries →
  py_endswith (str ".pdf") pdf_name = true →
  lookup_entry txt_name d = Some txt →
  (st_mtime pdf ≤ st_mtime txt)%Z →
  (∀ other, other ∈ entries.*1 → py_endswith (str ".pdf") other = true →
     name_stem other = name_stem pdf_name → other = pdf_name) →
  ∃ r w' new,
    convert_pdfs env target_dir w = (r, w') ∧
    trace w' = trace w ++ new ∧
    (Run (convert_command converter (target_dir </> [pdf_name]) (text_path </> [txt_name]))
       ∉ new) ∧
    lookup_entry txt_name (default [] (text_dir w')) = Some txt.
Proof.
  intros txt_name converter text_path Hpdfs Htext Hdup Hin Hsuffix Htxt Hnewer Hothers.
  assert (Hsame : ∀ name file, (name, file) ∈ sorted_glob (str ".pdf") entries →
            name_stem name ++ str ".txt" = txt_name → file = pdf).
  { intros name file Hfile Hstem. unfold sorted_glob in Hfile.
    rewrite py_sorted_perm in Hfile. apply list_elem_of_filter in Hfile as [Hpdf Hfile].
    apply app_inv_tail in Hstem.
    assert (name = pdf_name) as ->.
    { apply Hothers; [|by apply Is_true_true|done].
      apply list_elem_of_fmap. by exists (name, file). }
    by eapply NoDup_fst_unique. }
  unfold convert_pdfs. conv_simpl. rewrite Hpdfs.
  destruct (sorted_glob (str ".pdf") entries) as [|pdf_file pdf_files] eqn:Hglob.
  { do 2 eexists. eexists [_]. split_and!; [done|done| |cbn; by rewrite Htext].
    intros Hrun. apply elem_of_cons in Hrun as [?|Hrun]; [done|]. by apply elem_of_nil in Hrun. }
  destruct (ensure_tool_frame env w)
    as (r & w1 & new1 & -> & Htr1 & Hpdf1 & Htext1 & _ & Hruns & Hr).
  destruct r as [conv|[]|]; try done.
  2: { do 3 eexists. split_and!; [done|done| |by rewrite Htext1, Htext].
       intros Hrun. by apply Hruns in Hrun. }
  subst conv. fold converter.
  destruct (text_is_file w1).
  { do 3 eexists. split_and!; [done|done| |by rewrite Htext1, Htext].
    intros Hrun. by apply Hruns in Hrun. }
  rewrite Htext1, Htext. cbn [default id].
  match goal with
  | |- context [for_pdfs env _ _ _ _ ?w2] =>
      destruct (for_pdfs_keeps_text env converter (target_dir ++ [str "text"]) target_dir
                  pdf_name pdf txt (pdf_file :: pdf_files) w2 Hsame)
        as (w3 & new3 & -> & Htr3 & Hrun3 & _ & _ & Hlook3); [done..|]
  end.
  unfold build_readme. conv_simpl.
  do 3 eexists. split; [done|]. cbn. rewrite Htr3. cbn. rewrite Htr1, <-!app_assoc.
  split_and!; [done| |].
  - rewrite !elem_of_app. intros [Hrun|[Hrun|Hrun]].
    + by apply Hruns in Hrun.
    + done.
    + apply elem_of_cons in Hrun as [?|Hrun]; [done|]. by apply elem_of_nil in Hrun.
  - rewrite lookup_write_entry_ne; [done|]. intros Heq. symmetry in Heq.
    by apply txt_name_not_readme in Heq.
Qed.

(** C5 at a directory with [Mail.pdf], whose text [Mail.txt] is newer,
    and [Notes.pdf], which has no text yet. *)
Lemma up_to_date_text_is_kept_witness :
  let env := sample_env 0 in
  let pdf := {| st_mtime := 5; contents := str "a" |} in
  let txt := {| st_mtime := 7; contents := str "old" |} in
  let w := sample_world [(str "Mail.pdf", pdf);
                         (str "Notes.pdf", {| st_mtime := 8; contents := str "b" |})]
             (Some [(str "Mail.txt", txt)]) in
  ∃ r w' new,
    convert_pdfs env (APPSCRIPTS_DIR env) w = (r, w') ∧
    trace w' = trace w ++ new ∧
    (Run (convert_command (TOOL_BUILD_DIR env </> [str "pdf2text"])
            (APPSCRIPTS_DIR env </> [str "Mail.pdf"])
            (APPSCRIPTS_DIR env </> [str "text"] </> [name_stem (str "Mail.pdf") ++ str ".txt"]))
       ∉ new) ∧
    lookup_entry (name_stem (str "Mail.pdf") ++ str ".txt") (default [] (text_dir w'))
      = Some txt.
Proof.
  intros env pdf txt w.
  apply (up_to_date_text_is_kept env (APPSCRIPTS_DIR env) w
           [(str "Mail.pdf", pdf); (str "Notes.pdf", {| st_mtime := 8; contents := str "b" |})]
           [(str "Mail.txt", txt)] (str "Mail.pdf") pdf txt).
  - reflexivity.
  - reflexivity.
  - apply (bool_decide_unpack _). vm_compute. reflexivity.
  - left.
  - vm_compute. reflexivity.
  - vm_compute. reflexivity.
  - cbn. lia.
  - intros other Hin _ Hstem. cbn in Hin.
    apply elem_of_cons in Hin as [->|Hin]; [done|].
    apply list_elem_of_singleton in Hin as ->.
    vm_compute in Hstem. discriminate.
Defined.

(** C5 as the specification words it fails when two PDFs share a text
    file: [.pdf] and [.pdf.pdf] both have the stem [.pdf].  The text
    [.pdf.txt] is newer than [.pdf.pdf], so that pair is up to date, but
    older than [.pdf]: the run converts [.pdf] and the text of the pair
    is rewritten. *)
Example shared_text_is_rewritten :
  let env := sample_env 0 in
  let older := {| st_mtime := 1; contents := str "b" |} in
  let pdfs := [(str ".pdf.pdf", older); (str ".pdf", {| st_mtime := 5; contents := str "a" |})] in
  let txt := {| st_mtime := 3; contents := str "old" |} in
  let r := convert_pdfs env (APPSCRIPTS_DIR env) (sample_world pdfs (Some [(str ".pdf.txt", txt)])) in
  lookup_entry (name_stem (str ".pdf.pdf") ++ str ".txt") [(str ".pdf.txt", txt)] = Some txt ∧
  (st_mtime older ≤ st_mtime txt)%Z ∧
  r.1 = Return () ∧
  runs_of (trace r.2) =
    [[str "/repo/tools/.build/pdf2text"; str "/repo/AppScripts/.pdf";
      str "/repo/AppScripts/text/.pdf.txt"]] ∧
  lookup_entry (str ".pdf.txt") (default [] (text_dir r.2))
    = Some {| st_mtime := 9; contents := str "new" |}.
Proof. vm_compute. split_and!; done. Qed.

End ConverterFacts.

(** ** The steps of the converter *)
Module ConverterSteps.
Import Converter ConverterFacts.

(** X12: [ensure_tool] with a binary that is not older than the source
    returns the path of the binary and does nothing. *)
Theorem ensure_tool_up_to_date (env : Env) (w : World) (source_time binary_time : Z) :
  source_mtime env = Some source_time →
  binary_mtime w = Some binary_time →
  (source_time ≤ binary_time)%Z →
  ensure_tool env w = (Return (TOOL_BUILD_DIR env </> [str "pdf2text"]), w).
Proof.
  intros Hsource Hbinary Hle. unfold ensure_tool. rewrite Hsource. conv_simpl.
  rewrite Hbinary. cbn. by rewrite (proj2 (Z.ltb_ge _ _)) by lia.
Qed.

Lemma ensure_tool_up_to_date_witness :
  ensure_tool (sample_env 0) (sample_world [] None)
  = (Return [str "/"; str "repo"; str "tools"; str ".build"; str "pdf2text"],
     sample_world [] None).
Proof.
  apply (ensure_tool_up_to_date (sample_env 0) (sample_world [] None) 1 5);
    [reflexivity|reflexivity|lia].
Defined.

(** X13: [ensure_tool] with a missing or older binary, [swiftc] found and
    exiting with 0: the compiler is run once, linking [PDFKit], and the
    path of the binary is returned; the directories of PDFs and texts
    are not touched and nothing goes to the error stream. *)
Theorem ensure_tool_rebuilds (env : Env) (w : World) (source_time : Z) (swiftc : pystr) :
  let command :=
    [swiftc; path_str (PDF2TEXT_SOURCE env); str "-framework"; str "PDFKit"; str "-o";
     path_str (TOOL_BUILD_DIR env </> [str "pdf2text"]); str "-module-cache-path";
     path_str (TOOL_BUILD_DIR env </> [str "ModuleCache"])] in
  source_mtime env = Some source_time →
  needs_rebuild source_time (binary_mtime w) = true →
  which env (str "swiftc") = Some swiftc →
  returncode (compile_proc (swiftc_run env command)) = 0%Z →
  ∃ w',
    ensure_tool env w = (Return (TOOL_BUILD_DIR env </> [str "pdf2text"]), w') ∧
    runs_of (trace w') = runs_of (trace w) ++ [command] ∧
    stderr_of (trace w') = stderr_of (trace w) ∧
    pdf_dir w' = pdf_dir w ∧
    text_dir w' = text_dir w ∧
    binary_mtime w' =
      from_option Some (binary_mtime w) (compile_binary (swiftc_run env command)).
Proof.
  intros command Hsource Hstale Hswiftc Hrc. subst command.
  unfold ensure_tool. rewrite Hsource. conv_simpl.
  rewrite Hstale, Hswiftc. conv_simpl. unfold joinpath in Hrc. rewrite Hrc.
  rewrite bool_decide_false by (by intros Hne; apply Hne).
  destruct (compile_binary _); cbn; eexists; (split; [done|]); cbn;
    unfold runs_of, stderr_of; rewrite <-!app_assoc, !bind_app; cbn;
    by rewrite !app_nil_r.
Qed.

Lemma ensure_tool_rebuilds_witness :
  ∃ w',
    ensure_tool (sample_env 0)
        {| pdf_dir := Some []; text_dir := None; text_is_file := false;
           binary_mtime := None; trace := [] |}
      = (Return [str "/"; str "repo"; str "tools"; str ".build"; str "pdf2text"], w') ∧
    runs_of (trace w') =
      [[str "/usr/bin/swiftc"; str "/repo/tools/pdf2text.swift"; str "-framework";
        str "PDFKit"; str "-o"; str "/repo/tools/.build/pdf2text";
        str "-module-cache-path"; str "/repo/tools/.build/ModuleCache"]] ∧
    stderr_of (trace w') = [] ∧
    pdf_dir w' = Some [] ∧
    text_dir w' = None ∧
    binary_mtime w' = Some 10%Z.
Proof.
  apply (ensure_tool_rebuilds (sample_env 0)
           {| pdf_dir := Some []; text_dir := None; text_is_file := false;
           binary_mtime := None; trace := [] |}
           1 (str "/usr/bin/swiftc")); reflexivity.
Defined.

Lemma build_readme_returns env text_path w :
  build_readme env text_path w
  = (Return (),
     {| pdf_dir := pdf_dir w;
        text_dir := Some (write_entry (str "README.md")
                      {| st_mtime := readme_mtime env;
                         contents := readme_text (default [] (text_dir w)) |}
                      (default [] (text_dir w)));
        text_is_file := text_is_file w;
        binary_mtime := binary_mtime w;
        trace := trace w ++ [WriteText (text_path </> [str "README.md"])
                               (readme_text (default [] (text_dir w)))] |}).
Proof. unfold build_readme. by conv_simpl. Qed.

(** X14: The index describes the directory it is written to.  Whenever
    [convert_pdfs] returns on a directory with at least one PDF, the
    text directory holds a [README.md], written last, whose contents are
    the index of the text directory as it then is: the texts written in
    this run are listed, the index itself is not. *)
Theorem readme_lists_final_texts (env : Env) (target_dir : Path) (w w' : World)
    (entries : Dir) :
  pdf_dir w = Some entries →
  sorted_glob (str ".pdf") entries ≠ [] →
  convert_pdfs env target_dir w = (Return (), w') →
  ∃ readme,
    lookup_entry (str "README.md") (default [] (text_dir w')) = Some readme ∧
    contents readme = readme_text (default [] (text_dir w')) ∧
    st_mtime readme = readme_mtime env ∧
    last (trace w')
      = Some (WriteText (target_dir </> [str "text"] </> [str "README.md"]) (contents readme)).
Proof.
  intros Hdir Hpdfs. unfold convert_pdfs. conv_simpl. rewrite Hdir.
  destruct (sorted_glob (str ".pdf") entries) as [|pdf_file pdf_files]; [done|].
  destruct (ensure_tool env w) as [[tool| |] w1]; [|done..].
  destruct (text_is_file w1); [done|].
  match goal with
  | |- context [for_pdfs env ?c ?t ?d ?l ?w2] =>
      destruct (for_pdfs_returns env c t d l w2) as [w3 ->]
  end.
  rewrite build_readme_returns. intros [= <-]. eexists. cbn.
  rewrite lookup_write_entry. split; [done|]. cbn. split_and!; [|done|].
  - symmetry. apply readme_text_names, txt_names_write_readme.
  - by rewrite last_snoc.
Qed.

Lemma readme_lists_final_texts_witness :
  let env := sample_env 0 in
  let w := sample_world [(str "Mail.pdf", {| st_mtime := 5; contents := str "a" |})] None in
  let w' := (convert_pdfs env (APPSCRIPTS_DIR env) w).2 in
  ∃ readme,
    lookup_entry (str "README.md") (default [] (text_dir w')) = Some readme ∧
    contents readme = readme_text (default [] (text_dir w')) ∧
    st_mtime readme = readme_mtime env ∧
    last (trace w')
      = Some (WriteText (APPSCRIPTS_DIR env </> [str "text"] </> [str "README.md"])
                (contents readme)).
Proof.
  intros env w w'.
  apply (readme_lists_final_texts env (APPSCRIPTS_DIR env) w w'
           [(str "Mail.pdf", {| st_mtime := 5; contents := str "a" |})]).
  - reflexivity.
  - vm_compute. discriminate.
  - vm_compute. reflexivity.
Defined.

(** X15: The exit code of the converter.  An exit code [main] returns is
    0 or 1, and it is 1 exactly when the PDF directory does not exist,
    or it holds a PDF and the converter cannot be built; the run then
    ends with a warning and the text directory is as it was, and failing
    conversions leave the exit code at 0.  With the PDF directory
    missing [main] does return 1, after the one warning.  With a PDF, the
    converter at hand and [AppScripts/text] a file that is no directory,
    [main] returns no exit code: [mkdir] raises [FileExistsError], which
    [main] does not catch. *)
Theorem converter_exit_code (env : Env) (w : World) :
  (∀ code w',
     main env w = (Return code, w') →
     (code = 0%Z ∨ code = 1%Z) ∧
     (code = 1%Z ↔
        pdf_dir w = None ∨
        (∃ entries msg w1,
           pdf_dir w = Some entries ∧ sorted_glob (str ".pdf") entries ≠ [] ∧
           ensure_tool env w = (Raise (ConversionError msg), w1))) ∧
     (code = 1%Z → text_dir w' = text_dir w ∧ ∃ msg, last (trace w') = Some (warn msg))) ∧
  (pdf_dir w = None →
   main env w
   = (Return 1%Z,
      extend w [warn (str "PDF directory " ++ path_str (APPSCRIPTS_DIR env)
                      ++ str " does not exist")])) ∧
  (∀ entries tool w1,
     pdf_dir w = Some entries →
     sorted_glob (str ".pdf") entries ≠ [] →
     ensure_tool env w = (Return tool, w1) →
     text_is_file w = true →
     main env w
     = (Raise (FileExistsError
                 (str "[Errno 17] File exists: '"
                  ++ path_str (APPSCRIPTS_DIR env </> [str "text"]) ++ str "'")), w1)).
Proof.
  split_and!.
  - unfold main, convert_pdfs. conv_simpl.
    destruct (pdf_dir w) as [entries|] eqn:Hdir.
    + destruct (sorted_glob (str ".pdf") entries) as [|pdf_file pdf_files] eqn:Hglob.
      * conv_simpl. intros code w' [= <- <-]. split_and!; [by left| |done].
        split; [done|]. intros [?|(entries' & msg & w1 & [= <-] & Hne & _)]; [done|].
        by rewrite Hglob in Hne.
      * destruct (ensure_tool_frame env w)
          as (r & w1 & new & Heq & Htrace & Hpdf & Htext & Hfile & _ & Hr).
        rewrite Heq. destruct r as [tool|[msg|msg|msg|msg|]|]; try done.
        -- destruct (text_is_file w1); [done|].
           match goal with
           | |- context [for_pdfs env ?c ?t ?d ?l ?w2] =>
               destruct (for_pdfs_returns env c t d l w2) as [w3 ->]
           end.
           rewrite build_readme_returns. intros code w' [= <- <-].
           split_and!; [by left| |done].
           split; [done|]. by intros [?|(entries' & msg & w1' & _ & _ & [=])].
        -- conv_simpl. intros code w' [= <- <-]. split_and!; [by right| |].
           ++ split; [|done]. intros _. right. exists entries, msg, w1.
              by rewrite Hglob.
           ++ intros _. cbn. split; [done|]. exists msg. apply last_snoc.
    + conv_simpl. intros code w' [= <- <-]. split_and!; [by right| |].
      * split; [by left|done].
      * intros _. cbn. split; [done|]. eexists. apply last_snoc.
  - intros Hdir. unfold main, convert_pdfs. conv_simpl. by rewrite Hdir.
  - intros entries tool w1 Hdir Hpdfs Htool Hfile.
    destruct (ensure_tool_frame env w)
      as (r & w1' & new & Heq & _ & _ & _ & Hfile1 & _).
    rewrite Htool in Heq. injection Heq as <- <-.
    unfold main, convert_pdfs. conv_simpl. rewrite Hdir.
    destruct (sorted_glob (str ".pdf") entries) as [|pdf_file pdf_files]; [done|].
    rewrite Htool, Hfile1, Hfile. done.
Qed.

End ConverterSteps.

(** ** Both batch loops *)

(** C6: in both loops a failing item costs a warning and the loop goes
    on with the remaining items.  In the generator, for a bundle that is
    read, whose key is new and whose PDF does not exist: (1) with no
    scripting resource, (2) with [sdp] exiting non-zero, and (3) with
    the converter exiting non-zero, the run of the loop over the bundle
    and the remaining ones is the run over the remaining ones, started
    with the bundle's key marked as seen and in the world the iteration
    leaves: the trace extended by the effects of the search, the runs of
    the tools and, last, the warning of the failure; no PDF is added
    (except what a failing converter leaves) and only a failing
    converter's name is registered.  (4) The loop over no bundle returns
    with the world unchanged.  In the converter, (5) with a PDF whose
    text is missing or older and whose conversion exits non-zero, the
    run over the PDF and the remaining ones is the run over the
    remaining ones in the world extended by the log line, the run of the
    converter and the warning with the converter's output, and (6) the
    loop over no PDF returns with the world unchanged. *)
Theorem item_failure_is_a_warning :
  (∀ (env : Generator.Env) (output_dir converter app : Path) (apps : list Path)
     (info : Info) (seen used_names : gset pystr) (w : Generator.World),
     let app_name := Generator.app_name_of app info in
     let safe_name := sanitize_filename (Generator.nfkd env) app_name in
     let tmp_dir := Generator.mkdtemp env app in
     let found := find_script_resources (Generator.fs env) app info tmp_dir in
     let basename := Generator.sdp_basename safe_name in
     let header_path := tmp_dir </> [basename ++ str ".h"] in
     let continues used w' :=
       Generator.for_applications env output_dir converter (app :: apps) seen used_names w
       = Generator.for_applications env output_dir converter apps
           ({[Generator.app_key env app info]} ∪ seen) used w' in
     Generator.is_dir env app = true →
     Generator.read_plist env app = Generator.PlistLoaded info →
     Generator.app_key env app info ∉ seen →
     safe_name ++ str ".pdf" ∉ Generator.out_files w →
     (found.1 = None ∨ found.1 = Some [] →
      continues used_names
        (Generator.extend w
           (found.2 ++
            [warn (str "Skipping " ++ app_name ++ str ": no scripting definition found")]))) ∧
     (∀ input inputs sdp,
        let sdp_argv := Generator.sdp_command sdp basename (input :: inputs) in
        let result := Generator.sdp_run env sdp_argv tmp_dir in
        found.1 = Some (input :: inputs) →
        Generator.which env (str "sdp") = Some sdp →
        returncode (Generator.sdp_proc result) ≠ 0%Z →
        continues used_names
          (Generator.extend w
             (found.2 ++
              [Run sdp_argv;
               warn (app_name ++ str ": " ++ str "sdp failed for " ++ basename ++ str ": " ++
                     py_or (py_strip (proc_stderr (Generator.sdp_proc result)))
                       (py_or (py_strip (proc_stdout (Generator.sdp_proc result)))
                          (str "unknown error")))]))) ∧
     (∀ input inputs sdp pdf_name used,
        let sdp_argv := Generator.sdp_command sdp basename (input :: inputs) in
        let command :=
          Generator.convert_command converter header_path
            (output_dir </> [pdf_name ++ str ".pdf"]) in
        let result := Generator.convert_run env command in
        found.1 = Some (input :: inputs) →
        Generator.which env (str "sdp") = Some sdp →
        returncode (Generator.sdp_proc (Generator.sdp_run env sdp_argv tmp_dir)) = 0%Z →
        Generator.sdp_header (Generator.sdp_run env sdp_argv tmp_dir) = true →
        unique_name safe_name used_names = Some (pdf_name, used) →
        Generator.convert_returncode result ≠ 0%Z →
        continues used
          {| Generator.out_files :=
               if Generator.convert_wrote result
               then {[pdf_name ++ str ".pdf"]} ∪ Generator.out_files w
               else Generator.out_files w;
             Generator.binary_mtime := Generator.binary_mtime w;
             Generator.trace := Generator.trace w ++ found.2 ++
               [Run sdp_argv; Run command;
                warn (str "Failed to convert header for " ++ app_name ++ str ": " ++
                      Generator.convert_exc result)] |})) ∧
  (∀ (env : Generator.Env) (output_dir converter : Path) (seen used_names : gset pystr)
     (w : Generator.World),
     Generator.for_applications env output_dir converter [] seen used_names w
     = (Return (), w)) ∧
  (∀ (env : Converter.Env) (converter text_path target_dir : Path) (pdf_name : pystr)
     (pdf : Converter.File) (pdf_files : Converter.Dir) (w : Converter.World),
     let txt_name := name_stem pdf_name ++ str ".txt" in
     let command :=
       Converter.convert_command converter (target_dir </> [pdf_name])
         (text_path </> [txt_name]) in
     let result := Converter.convert_run env command in
     Converter.up_to_date txt_name pdf (default [] (Converter.text_dir w)) = false →
     returncode (Converter.convert_proc result) ≠ 0%Z →
     Converter.for_pdfs env converter text_path target_dir ((pdf_name, pdf) :: pdf_files) w
     = Converter.for_pdfs env converter text_path target_dir pdf_files
         {| Converter.pdf_dir := Converter.pdf_dir w;
            Converter.text_dir :=
              match Converter.convert_output result with
              | Some txt =>
                  Some (Converter.write_entry txt_name txt (default [] (Converter.text_dir w)))
              | None => Converter.text_dir w
              end;
            Converter.text_is_file := Converter.text_is_file w;
            Converter.binary_mtime := Converter.binary_mtime w;
            Converter.trace := Converter.trace w ++
              [log (str "Extracting text from " ++ pdf_name); Run command;
               warn (str "Failed to convert " ++ pdf_name ++ str ": " ++
                     py_or (proc_stderr (Converter.convert_proc result))
                           (proc_stdout (Converter.convert_proc result)))] |}) ∧
  (∀ (env : Converter.Env) (converter text_path target_dir : Path) (w : Converter.World),
     Converter.for_pdfs env converter text_path target_dir [] w = (Return (), w)).
Proof.
  split_and!.
  - intros env output_dir converter app apps info seen used_names w
      app_name safe_name tmp_dir found basename header_path continues Hdir Hplist Hkey Hnew.
    subst continues. split_and!.
    + intros Hfound. apply GeneratorFacts.for_applications_step; [done..|].
      by apply GeneratorFacts.process_app_no_resource.
    + intros input inputs sdp sdp_argv result Hfound Hsdp Hrc.
      apply GeneratorFacts.for_applications_step; [done..|].
      by apply GeneratorFacts.process_app_sdp_fails.
    + intros input inputs sdp pdf_name used sdp_argv command result
        Hfound Hsdp Hrc Hheader Hunique Hconv.
      apply GeneratorFacts.for_applications_step; [done..|].
      by apply (GeneratorFacts.process_app_convert_fails env output_dir converter app info
                  used_names w Hnew input inputs sdp).
  - done.
  - intros. by apply ConverterFacts.for_pdfs_failure.
  - done.
Qed.

(** C6 at a batch of two PDFs whose conversions both exit with 1: the
    loop returns and has warned about each of them. *)
Lemma item_failure_is_a_warning_witness :
  let env := Converter.sample_env 1 in
  let pdf := {| Converter.st_mtime := 5; Converter.contents := str "a" |} in
  let run :=
    Converter.for_pdfs env [str "pdf2text"] [str "text"] [str "AppScripts"]
      [(str "Mail.pdf", pdf); (str "Notes.pdf", pdf)] (Converter.sample_world [] None) in
  run.1 = Return () ∧
  stderr_of (Converter.trace run.2)
  = [str "warning: Failed to convert Mail.pdf: failed";
     str "warning: Failed to convert Notes.pdf: failed"].
Proof.
  intros env pdf run. subst run.
  destruct item_failure_is_a_warning as (_ & _ & Hstep & Hbase).
  rewrite (Hstep env); [|vm_compute; reflexivity|vm_compute; discriminate].
  rewrite (Hstep env); [|vm_compute; reflexivity|vm_compute; discriminate].
  rewrite Hbase. vm_compute. done.
Defined.

(** ** Sample evaluations *)

(** An accented letter, a slash and runs of spaces. *)
Example sanitize_accent_slash :
  sanitize_filename nfkd_sample ([67; 97; 102; 233] ++ str "/Bar   Baz ")
  = str "Cafe-Bar Baz".
Proof. vm_compute. reflexivity. Qed.

(** Four names fed through one set that already holds [Notes]. *)
Example unique_names_run :
  unique_names [str "Mail"; str "Mail"; str "Notes"; str "Mail"] {[str "Notes"]}
  = Some ([str "Mail"; str "Mail (2)"; str "Notes (2)"; str "Mail (3)"],
          list_to_set [str "Mail"; str "Mail (2)"; str "Notes (2)"; str "Mail (3)"; str "Notes"]).
Proof. vm_compute. reflexivity. Qed.

(** The key tests for the part ['.lproj'] itself, so every localization
    folder ranks like the English one: of two files at the same depth
    the one scanned first is selected. *)
Example find_sdef_french_beats_english :
  (find_script_resources
     (demo_fs [[str "fr.lproj"; str "Demo.sdef"]; [str "en.lproj"; str "Demo.sdef"]])
     demo_app no_info [str "/"; str "tmp"]).1
  = Some [demo_root </> [str "fr.lproj"; str "Demo.sdef"]].
Proof. vm_compute. reflexivity. Qed.

(** A suite without its terminology file is no resource. *)
Example find_suite_alone :
  (find_script_resources
     (demo_fs [[str "Demo.scriptSuite"]])
     demo_app no_info [str "/"; str "tmp"]).1
  = None.
Proof. vm_compute. reflexivity. Qed.

(** A suite with its terminology file gives both. *)
Example find_suite_pair :
  (find_script_resources
     (demo_fs [[str "Demo.scriptTerminology"]; [str "Demo.scriptSuite"]])
     demo_app no_info [str "/"; str "tmp"]).1
  = Some [demo_root </> [str "Demo.scriptSuite"]; demo_root </> [str "Demo.scriptTerminology"]].
Proof. vm_compute. reflexivity. Qed.

(** A declared string names the file: the whole string is the path. *)
Example declared_string_names_the_file :
  find_script_resources (demo_fs [[str "Demo.sdef"]]) demo_app
    (declaring_info (PString (str "Demo.sdef"))) [str "/"; str "tmp"]
  = (Some [demo_root </> [str "Demo.sdef"]], []) ∧
  find_script_resources (demo_fs [[str "Demo.sdef"]]) demo_app
    (declaring_info (PString (str "xDemo.sdef"))) [str "/"; str "tmp"]
  = (None,
     [warn (str "Demo: Info.plist references OSAScriptingDefinition 'xDemo.sdef', "
            ++ str "but the resource was not found.")]) ∧
  find_script_resources (demo_fs [[str "Demo.sdef"]]) demo_app
    (declaring_info (PString (str "/Applications/Demo.app/Contents/Resources/Demo.sdef")))
    [str "/"; str "tmp"]
  = (Some [demo_root </> [str "Demo.sdef"]], []).
Proof. vm_compute. done. Qed.

(** Declared bytes are written as they are. *)
Example declared_bytes_are_written :
  find_script_resources (demo_fs []) demo_app
    (declaring_info (PData [60; 100; 47; 62])) [str "/"; str "tmp"]
  = (Some [[str "/"; str "tmp"; str "dictionary.sdef"]],
     [WriteBytes [str "/"; str "tmp"; str "dictionary.sdef"] [60; 100; 47; 62]]).
Proof. vm_compute. reflexivity. Qed.

(** [AppScripts/text] is a file that is no directory: [mkdir] raises, and
    the converter's [main] returns no exit code. *)
Example text_file_stops_the_converter :
  Converter.main (Converter.sample_env 0)
    {| Converter.pdf_dir :=
         Some [(str "Mail.pdf", {| Converter.st_mtime := 5; Converter.contents := str "a" |})];
       Converter.text_dir := None; Converter.text_is_file := true;
       Converter.binary_mtime := Some 5%Z; Converter.trace := [] |}
  = (Raise (FileExistsError (str "[Errno 17] File exists: '/repo/AppScripts/text'")),
     {| Converter.pdf_dir :=
          Some [(str "Mail.pdf", {| Converter.st_mtime := 5; Converter.contents := str "a" |})];
        Converter.text_dir := None; Converter.text_is_file := true;
        Converter.binary_mtime := Some 5%Z; Converter.trace := [] |}).
Proof. vm_compute. reflexivity. Qed.
